(** * Selam Islamic School results bot: a shallow embedding of [bot.py]

    The development follows the source file top to bottom: the Python
    primitives the bot relies on, the configuration and the static tables
    ([ColumnMapping], [Subjects], [MESSAGES]), the two relational tables
    created by [init_db], [db_execute] and the helpers built on it, the
    rate limiter, and the [/register] handler.

    Conventions.
    - Python [str] values are byte strings ([string]).  [split],
      [isdigit] and [int] are Python's on ASCII text and differ from
      them on other text (Python also splits on Unicode white space and
      knows Unicode digits), so a statement that depends on how a
      message text is split or read as a number carries the hypothesis
      [isascii].
    - A table with a [PRIMARY KEY] is a finite map from the key to the
      remaining columns; a nullable [TEXT] column is an [option string].
    - [datetime] values are integers counting microseconds, so that a
      [timedelta] is a difference of two of them.
    - Code that can raise runs in the monad [M]: a function from the world
      to an outcome (a value or an exception) and the world it leaves
      behind.  Writes that were committed before an exception stay
      committed.
    - The value of a handler is the reply it hands to [bot.reply_to] as
      its last action; whether that last send goes through is not part of
      the model.  A send whose failure the code itself catches, the one
      inside the [try] block of [register_user], is a step that can raise.
    - The environment is outside the program: [fault n] tells whether the
      [n]-th round trip to a server fails (to PostgreSQL for a statement,
      to Telegram for the send inside the [try] block), and [entropy n]
      is the raw value behind the [n]-th call of [secrets.randbelow]. *)

From Stdlib Require Import ZArith List String Ascii Lia Bool.
From stdpp Require Import base option list gmap strings.
Import ListNotations.

Local Open Scope string_scope.
Local Open Scope Z_scope.

(** ** Python primitives *)

Module Py.

(** Exceptions that the modelled code can raise. *)
Inductive exn : Type :=
| OperationalError   (* psycopg2: the round trip to the server failed *)
| IntegrityError     (* psycopg2: primary-key violation *)
| ProgrammingError   (* psycopg2: fetchall() without a result set *)
| ValueError
| KeyError
| IndexError
| AttributeError
| ApiTelegramException.   (* telebot: the send to Telegram failed *)

Inductive outcome (A : Type) : Type :=
| Ok (a : A)
| Raise (e : exn).
Arguments Ok {A} a.
Arguments Raise {A} e.

(** [str.isspace] on an ASCII character: TAB..CR, FS..US and SPACE.
    Python's also holds of Unicode white space such as U+00A0. *)
Definition isspace (c : ascii) : bool :=
  let n := Z.of_N (N_of_ascii c) in
  ((9 <=? n) && (n <=? 13)) || ((28 <=? n) && (n <=? 32)).

(** [c.isdigit()] on an ASCII character. *)
Definition isdigit_char (c : ascii) : bool :=
  let n := Z.of_N (N_of_ascii c) in
  (48 <=? n) && (n <=? 57).

(** [s.split()] with no argument: the maximal runs of non-whitespace.
    Python's result on a text for which [isascii] holds; on other texts
    Python splits on Unicode white space as well. *)
Fixpoint split_from (cur : string) (s : string) : list string :=
  match s with
  | EmptyString =>
      match cur with EmptyString => [] | _ => [cur] end
  | String c rest =>
      if isspace c then
        match cur with
        | EmptyString => split_from EmptyString rest
        | _ => cur :: split_from EmptyString rest
        end
      else split_from (cur ++ String c EmptyString) rest
  end.

Definition split (s : string) : list string := split_from EmptyString s.

Fixpoint all_chars (p : ascii -> bool) (s : string) : bool :=
  match s with
  | EmptyString => true
  | String c rest => p c && all_chars p rest
  end.

(** [s.isdigit()]: at least one character and digits only.  Python's
    result on a text for which [isascii] holds; Python's also holds of
    Unicode digits such as the Arabic-Indic ones and superscript two. *)
Definition isdigit (s : string) : bool :=
  match s with
  | EmptyString => false
  | _ => all_chars isdigit_char s
  end.

(** Texts on which the byte-level predicates above agree with
    Python's Unicode-aware ones. *)
Definition isascii (s : string) : bool :=
  all_chars (fun c => Z.of_N (N_of_ascii c) <? 128) s.

Fixpoint int_from (acc : Z) (s : string) : Z :=
  match s with
  | EmptyString => acc
  | String c rest => int_from (10 * acc + (Z.of_N (N_of_ascii c) - 48)) rest
  end.

(** [int(s)] for a string [s] of ASCII digits.  The bot calls [int]
    behind [s.isdigit()]; on a text with Unicode digits Python's [int]
    reads the decimal ones and raises [ValueError] on the others. *)
Definition int (s : string) : Z := int_from 0 s.

Definition digit_char (d : Z) : ascii := ascii_of_N (Z.to_N (48 + d)).

(** Decimal digits of a natural number, most significant first. *)
Fixpoint decimal_digits (fuel : nat) (n : Z) (acc : string) : string :=
  let acc' := String (digit_char (n mod 10)) acc in
  match fuel with
  | O => acc'
  | S fuel' =>
      if n / 10 =? 0 then acc' else decimal_digits fuel' (n / 10) acc'
  end.

Definition str_nonneg (n : Z) : string :=
  decimal_digits (Z.to_nat (Z.log2 n)) n EmptyString.

(** [str(n)] for an [int]. *)
Definition str (n : Z) : string :=
  if n <? 0 then String "-" (str_nonneg (- n)) else str_nonneg n.

Fixpoint zeros (k : nat) (s : string) : string :=
  match k with
  | O => s
  | S k' => String "0" (zeros k' s)
  end.

(** [f"{n:0{width}d}"]: sign first, then zeros up to the width. *)
Definition format_0d (width : nat) (n : Z) : string :=
  if n <? 0 then
    let d := str_nonneg (- n) in
    String "-" (zeros (width - 1 - String.length d) d)
  else
    let d := str_nonneg n in
    zeros (width - String.length d) d.

(** [secrets.randbelow(n)]: a value in [[0, n)] drawn from the system's
    entropy, here the raw draw reduced into the range. *)
Definition randbelow (raw : Z) (n : Z) : Z := raw mod n.

End Py.
Export Py.

(** ** Configuration and enumerations *)

Module Config.
(** [RATE_LIMIT = {'max_attempts': 5, 'period': 60}]: 5 attempts per minute. *)
Definition RATE_LIMIT_max_attempts : nat := 5.
Definition RATE_LIMIT_period : Z := 60.
Definition CACHE_SIZE : nat := 8.
Definition REGISTRATION_TIMEOUT : Z := 300.
End Config.

(** [timedelta(seconds=s)], in microseconds. *)
Definition timedelta_seconds (s : Z) : Z := s * 1000000.

Inductive SchoolLevel : Type :=
| ELEMENTARY
| MIDDLE.

(** [level.value] *)
Definition SchoolLevel_value (l : SchoolLevel) : string :=
  match l with
  | ELEMENTARY => "elementary"
  | MIDDLE => "middle"
  end.

(** [SchoolLevel(v)]: the member whose value is [v]; any other value,
    [None] included, raises [ValueError]. *)
Definition SchoolLevel_of (v : option string) : outcome SchoolLevel :=
  match v with
  | Some s =>
      if String.eqb s "elementary" then Ok ELEMENTARY
      else if String.eqb s "middle" then Ok MIDDLE
      else Raise ValueError
  | None => Raise ValueError
  end.

(** ** Static tables *)

(** One entry of [ColumnMapping]: the column of each field of a sheet.
    [conduct] is absent from the [Ave] sheets and [remark] from the
    semester sheets. *)
Record column_map : Type := mk_column_map {
  cm_student_no : Z;
  cm_name : Z;
  cm_sex : Z;
  cm_age : Z;
  cm_subjects : list Z;
  cm_conduct : option Z;
  cm_sum : Z;
  cm_average : Z;
  cm_rank : Z;
  cm_remark : option Z
}.

Module ColumnMapping.
Definition ELEMENTARY : gmap string column_map :=
  list_to_map
    [ ("S1", mk_column_map 1 3 4 5 [6; 7; 8; 9; 10; 11; 12; 13]
               (Some 14) 15 16 17 None);
      ("S2", mk_column_map 1 3 4 5 [6; 7; 8; 9; 10; 11; 12; 13]
               (Some 14) 15 16 17 None);
      ("Ave", mk_column_map 1 2 3 4 [5; 6; 7; 8; 9; 10; 11; 12]
               None 13 14 15 (Some 16)) ].

Definition MIDDLE : gmap string column_map :=
  list_to_map
    [ ("S1", mk_column_map 1 3 4 5 [6; 7; 8; 9; 10; 11; 12; 13; 14; 15; 16]
               (Some 17) 18 19 20 None);
      ("S2", mk_column_map 1 3 4 5 [6; 7; 8; 9; 10; 11; 12; 13; 14; 15; 16]
               (Some 17) 18 19 20 None);
      ("Ave", mk_column_map 1 2 3 4 [5; 6; 7; 8; 9; 10; 11; 12; 13; 14; 15]
               None 16 17 18 (Some 19)) ].
End ColumnMapping.

Module Subjects.
Definition ELEMENTARY : gmap string (list string) :=
  list_to_map
    [ ("en", ["Amharic"; "English"; "Arabic"; "Maths"; "E.S"; "Moral Edu";
              "Art"; "HPE"]);
      ("am", ["አማርኛ"; "እንግሊዝኛ"; "አረብኛ"; "ሒሳብ"; "ኢ.ኤስ"; "ሥነ ምግባር ትምህርት";
              "ሥነ ጥበብ"; "ኤች.ፒ.ኢ"]) ].

Definition MIDDLE : gmap string (list string) :=
  list_to_map
    [ ("en", ["Amharic"; "English"; "Arabic"; "Maths"; "General Science";
              "Geography"; "Citizenship"; "CTE"; "ICT"; "Art"; "HPE"]);
      ("am", ["አማርኛ"; "እንግሊዝኛ"; "አረብኛ"; "ሒሳብ"; "አጠቃላይ ሳይንስ"; "ጂኦግራፊ";
              "ዜግነት"; "ሲ.ቲ.ኢ"; "አይ.ሲ.ቲ"; "ሥነ ጥበብ"; "ኤች.ፒ.ኢ"]) ].
End Subjects.

(** The table of a level: the class attribute named after it. *)
Definition column_mapping (l : SchoolLevel) : gmap string column_map :=
  match l with
  | ELEMENTARY => ColumnMapping.ELEMENTARY
  | MIDDLE => ColumnMapping.MIDDLE
  end.

Definition subjects (l : SchoolLevel) : gmap string (list string) :=
  match l with
  | ELEMENTARY => Subjects.ELEMENTARY
  | MIDDLE => Subjects.MIDDLE
  end.

(** [MESSAGES[lang]['register_usage']], the one entry the modelled code
    reads; a language outside the table raises [KeyError]. *)
Definition MESSAGES_register_usage : gmap string string :=
  list_to_map
    [ ("en", "Usage: /register <grade_section> <student_no> (e.g., /register 7A 10)");
      ("am", "አጠቃቀም: /register <grade_section> <student_no> (ለምሳሌ፣ /register 7A 10)") ].

(** ** Cell values *)

(** The Python objects that reach [get_value]: [None], the values
    openpyxl stores in a cell, and a cell itself, which is the only one
    of them with a [value] attribute.  A float is kept as its 64 bits. *)
Inductive pyobj : Type :=
| PyNone
| PyStr (s : string)
| PyInt (n : Z)
| PyFloat (bits : Z)
| PyBool (b : bool)
| PyCell (value : pyobj).

(** [bool(o)]: a cell defines neither [__bool__] nor [__len__]. *)
Definition truthy (o : pyobj) : bool :=
  match o with
  | PyNone => false
  | PyStr s => negb (String.eqb s "")
  | PyInt n => negb (n =? 0)
  | PyFloat bits => negb (Z.land bits (Z.ones 63) =? 0)
  | PyBool b => b
  | PyCell _ => true
  end.

(** [o.value] *)
Definition getattr_value (o : pyobj) : outcome pyobj :=
  match o with
  | PyCell v => Ok v
  | _ => Raise AttributeError
  end.

(** [hasattr(o, 'value')]: whether reading the attribute succeeds. *)
Definition hasattr_value (o : pyobj) : bool :=
  match getattr_value o with
  | Ok _ => true
  | Raise _ => false
  end.

Definition is_not_None (o : pyobj) : bool :=
  match o with
  | PyNone => false
  | _ => true
  end.

(** [cell.value if cell and hasattr(cell, 'value') and cell.value is not None else 'N/A'] *)
Definition get_value (cell : pyobj) : outcome pyobj :=
  if truthy cell then
    if hasattr_value cell then
      match getattr_value cell with
      | Ok v => if is_not_None v then getattr_value cell else Ok (PyStr "N/A")
      | Raise e => Raise e
      end
    else Ok (PyStr "N/A")
  else Ok (PyStr "N/A").

(** ** The relational store

    [init_db] creates two tables, each with a [TEXT PRIMARY KEY]:
    [users (user_id, grade_section, student_no, pin, language,
    school_level, registered_at)] and [student_identifiers (pin,
    grade_section, student_no, telegram_id, school_level)]. *)

Record user_row : Type := mk_user_row {
  u_grade_section : option string;
  u_student_no : option string;
  u_pin : option string;
  u_language : option string;
  u_school_level : option string;
  u_registered_at : option Z
}.

Record identifier_row : Type := mk_identifier_row {
  i_grade_section : option string;
  i_student_no : option string;
  i_telegram_id : option string;
  i_school_level : option string
}.

(** Everything the handlers read or write: the two tables, the
    module-level [user_attempts] dictionary, and how many round trips to
    a server ([db_calls]: the statements, and the sends made inside a
    [try] block) and how many random draws have been made so far. *)
Record world : Type := mk_world {
  users : gmap string user_row;
  student_identifiers : gmap string identifier_row;
  user_attempts : gmap string (list Z);
  db_calls : nat;
  rand_calls : nat
}.

(** The state after [init_db] on a fresh database and the module-level
    [user_attempts = defaultdict(list)]. *)
Definition initial_world : world := mk_world ∅ ∅ ∅ 0 0.

Definition with_users (f : gmap string user_row -> gmap string user_row)
    (w : world) : world :=
  mk_world (f (users w)) (student_identifiers w) (user_attempts w)
           (db_calls w) (rand_calls w).

Definition with_student_identifiers
    (f : gmap string identifier_row -> gmap string identifier_row)
    (w : world) : world :=
  mk_world (users w) (f (student_identifiers w)) (user_attempts w)
           (db_calls w) (rand_calls w).

Definition with_user_attempts (a : gmap string (list Z)) (w : world) : world :=
  mk_world (users w) (student_identifiers w) a (db_calls w) (rand_calls w).

Definition next_db_call (w : world) : world :=
  mk_world (users w) (student_identifiers w) (user_attempts w)
           (S (db_calls w)) (rand_calls w).

Definition next_rand_call (w : world) : world :=
  mk_world (users w) (student_identifiers w) (user_attempts w)
           (db_calls w) (S (rand_calls w)).

(** ** The monad of the handlers *)

Definition M (A : Type) : Type := world -> outcome A * world.

Definition ret {A : Type} (a : A) : M A := fun w => (Ok a, w).

Definition raise {A : Type} (e : exn) : M A := fun w => (Raise e, w).

Definition bind {A B : Type} (m : M A) (k : A -> M B) : M B :=
  fun w =>
    match m w with
    | (Ok a, w') => k a w'
    | (Raise e, w') => (Raise e, w')
    end.

(** [try: m  except Exception as e: h e] *)
Definition try_except {A : Type} (m : M A) (h : exn -> M A) : M A :=
  fun w =>
    match m w with
    | (Ok a, w') => (Ok a, w')
    | (Raise e, w') => h e w'
    end.

Definition lift_outcome {A : Type} (o : outcome A) : M A := fun w => (o, w).

Notation "x <- m ;; k" := (bind m (fun x => k))
  (at level 100, m at next level, right associativity).
Notation "m ;;; k" := (bind m (fun _ => k))
  (at level 100, right associativity).

(** The statements the bot sends, with their parameters. *)
Inductive query : Type :=
| SELECT_pin (pin : string)
    (* SELECT pin FROM student_identifiers WHERE pin=%s *)
| SELECT_language (user_id : string)
    (* SELECT language FROM users WHERE user_id=%s *)
| SELECT_school_level (user_id : string)
    (* SELECT school_level FROM users WHERE user_id=%s *)
| SELECT_grade_section_student_no (user_id : string)
    (* SELECT grade_section, student_no FROM users WHERE user_id=%s *)
| INSERT_student_identifiers (pin grade_section student_no telegram_id school_level : string)
    (* INSERT INTO student_identifiers (...) VALUES (%s, %s, %s, %s, %s) *)
| UPDATE_users (grade_section student_no pin user_id : string).
    (* UPDATE users SET grade_section=%s, student_no=%s, pin=%s WHERE user_id=%s *)

(** A result set: rows of nullable text columns. *)
Definition rows : Type := list (list (option string)).

(** The rows of a table selected by its primary key. *)
Definition select_by_key {R : Type} (t : gmap string R) (k : string)
    (columns : R -> list (option string)) : rows :=
  match t !! k with
  | Some r => [columns r]
  | None => []
  end.

Definition set_registration (gs sn pin : string) (r : user_row) : user_row :=
  mk_user_row (Some gs) (Some sn) (Some pin)
              (u_language r) (u_school_level r) (u_registered_at r).

(** [cur.execute(query, params)] inside an open transaction: the result
    set of a [SELECT] ([None] for a statement without one) and the tables
    as the transaction sees them, or the exception raised. *)
Definition cur_execute (q : query) (w : world) : outcome (option rows * world) :=
  match q with
  | SELECT_pin pin =>
      Ok (Some (select_by_key (student_identifiers w) pin (fun _ => [Some pin])), w)
  | SELECT_language uid =>
      Ok (Some (select_by_key (users w) uid (fun r => [u_language r])), w)
  | SELECT_school_level uid =>
      Ok (Some (select_by_key (users w) uid (fun r => [u_school_level r])), w)
  | SELECT_grade_section_student_no uid =>
      Ok (Some (select_by_key (users w) uid
                  (fun r => [u_grade_section r; u_student_no r])), w)
  | INSERT_student_identifiers pin gs sn tid lvl =>
      match student_identifiers w !! pin with
      | Some _ => Raise IntegrityError
      | None =>
          Ok (None,
              with_student_identifiers
                (insert pin (mk_identifier_row (Some gs) (Some sn) (Some tid) (Some lvl)))
                w)
      end
  | UPDATE_users gs sn pin uid =>
      Ok (None, with_users (alter (set_registration gs sn pin) uid) w)
  end.

Section Environment.

(** [fault n]: the [n]-th round trip to a server fails. *)
Variable fault : nat -> bool.
(** [entropy n]: the raw value behind the [n]-th random draw. *)
Variable entropy : nat -> Z.

(** [db_execute(query, params, fetch)]: connect, execute, then either
    fetch the rows or commit.  A failed round trip changes nothing; so
    does a statement that raises, and a write that is fetched instead of
    committed. *)
Definition db_execute (q : query) (fetch : bool) : M (option rows) :=
  fun w =>
    let w1 := next_db_call w in
    if fault (db_calls w) then (Raise OperationalError, w1)
    else
      match cur_execute q w1 with
      | Raise e => (Raise e, w1)
      | Ok (result, w2) =>
          if fetch then
            match result with
            | Some rs => (Ok (Some rs), w1)
            | None => (Raise ProgrammingError, w1)
            end
          else (Ok None, w2)
      end.

(** Truth value of what [db_execute] returns: [None] and the empty list
    are false. *)
Definition result_truthy (r : option rows) : bool :=
  match r with
  | Some (_ :: _) => true
  | _ => false
  end.

(** [result[0][0]] *)
Definition first_cell (r : option rows) : outcome (option string) :=
  match r with
  | Some ((v :: _) :: _) => Ok v
  | _ => Raise IndexError
  end.

(** [f"{secrets.randbelow(1000000):06d}"] *)
Definition draw_pin : M string :=
  fun w => (Ok (format_0d 6 (randbelow (entropy (rand_calls w)) 1000000)),
            next_rand_call w).

(** The [for _ in range(n)] loop of [generate_unique_pin]. *)
Fixpoint generate_unique_pin_loop (n : nat) : M string :=
  match n with
  | O => raise ValueError
  | S n' =>
      pin <- draw_pin ;;
      found <- db_execute (SELECT_pin pin) true ;;
      if negb (result_truthy found) then ret pin
      else generate_unique_pin_loop n'
  end.

Definition generate_unique_pin : M string :=
  let max_attempts := 100%nat in
  generate_unique_pin_loop max_attempts.

Definition get_user_language (user_id : string) : M (option string) :=
  result <- db_execute (SELECT_language user_id) true ;;
  if result_truthy result then lift_outcome (first_cell result)
  else ret (Some "en").

Definition get_user_school_level (user_id : string) : M (option SchoolLevel) :=
  result <- db_execute (SELECT_school_level user_id) true ;;
  if result_truthy result then
    v <- lift_outcome (first_cell result) ;;
    l <- lift_outcome (SchoolLevel_of v) ;;
    ret (Some l)
  else ret None.

End Environment.

(** ** Rate limiting *)

(** [is_rate_limited(user_id)] at clock reading [now], as a function of
    the [user_attempts] dictionary (a [defaultdict(list)]: a missing key
    reads as the empty list).  Returns [True] when the caller is blocked. *)
Definition is_rate_limited (user_id : string) (now : Z)
    (attempts_of : gmap string (list Z)) : bool * gmap string (list Z) :=
  let attempts :=
    List.filter
      (fun t => now - t <? timedelta_seconds Config.RATE_LIMIT_period)
      (attempts_of !!! user_id) in
  let attempts_of := <[user_id := attempts]> attempts_of in
  if (Config.RATE_LIMIT_max_attempts <=? length attempts)%nat then
    (true, attempts_of)
  else
    (false, <[user_id := (attempts ++ [now])%list]> attempts_of).

(** A run of checks, each with its caller and its clock reading. *)
Fixpoint rate_limit_checks (calls : list (string * Z))
    (attempts_of : gmap string (list Z)) : list bool * gmap string (list Z) :=
  match calls with
  | [] => ([], attempts_of)
  | (user_id, now) :: rest =>
      let '(b, attempts_of) := is_rate_limited user_id now attempts_of in
      let '(bs, attempts_of) := rate_limit_checks rest attempts_of in
      (b :: bs, attempts_of)
  end.

(** The check as a step of a handler. *)
Definition is_rate_limited_step (user_id : string) (now : Z) : M bool :=
  fun w =>
    let '(b, a) := is_rate_limited user_id now (user_attempts w) in
    (Ok b, with_user_attempts a w).

(** ** The [/register] handler *)

Record message : Type := mk_message {
  from_user_id : Z;
  text : string
}.

(** What a handler hands to [bot.reply_to]. *)
Inductive reply : Type :=
| TooManyRequests                 (* "Too many requests. Please wait a minute." *)
| SelectSchoolLevelFirst          (* "Please select your school level first with /start" *)
| RegisterUsage (usage : string)  (* MESSAGES[lang]['register_usage'] *)
| InvalidSection                  (* "Invalid grade/section." *)
| InvalidStudentNumber            (* "Invalid student number (1-60)." *)
| AlreadyRegistered               (* "You are already registered." *)
| RegistrationSuccessful (pin : string)
                                  (* "Registration successful! Your PIN: `{pin}`" *)
| RegistrationFailed.             (* "Registration failed. Please try again." *)

Definition valid_sections (school_level : SchoolLevel) : list string :=
  match school_level with
  | ELEMENTARY =>
      ["1A"; "1B"; "1C"; "2A"; "2B"; "2C"; "3A"; "3B"; "4A"; "4B"; "5A"; "5B";
       "6A"; "6B"]
  | MIDDLE => ["7A"; "7B"; "8A"; "8B"]
  end.

(** [x in xs] for a list of strings *)
Definition str_in (x : string) (xs : list string) : bool :=
  existsb (String.eqb x) xs.

(** [MESSAGES[lang]['register_usage']] *)
Definition register_usage (lang : option string) : outcome string :=
  match lang with
  | Some l =>
      match MESSAGES_register_usage !! l with
      | Some m => Ok m
      | None => Raise KeyError
      end
  | None => Raise KeyError
  end.

Section Handlers.

Variable fault : nat -> bool.
Variable entropy : nat -> Z.

(** [bot.reply_to(message, text)] where the code catches its failure:
    one round trip to Telegram, which sends the reply or raises. *)
Definition bot_reply_to (r : reply) : M reply :=
  fun w =>
    if fault (db_calls w) then (Raise ApiTelegramException, next_db_call w)
    else (Ok r, next_db_call w).

(** The [try] block of [register_user] with its [except] clause:
    generate a PIN, insert the identifier, update the user, and send the
    success message; any exception of these four steps, the send
    included, is caught and answered with the failure message, which is
    the last action then. *)
Definition store_registration (grade_section student_no user_id : string)
    (school_level : SchoolLevel) : M reply :=
  try_except
    (pin <- generate_unique_pin fault entropy ;;
     db_execute fault
       (INSERT_student_identifiers pin grade_section student_no user_id
          (SchoolLevel_value school_level)) false ;;;
     db_execute fault
       (UPDATE_users grade_section student_no pin user_id) false ;;;
     bot_reply_to (RegistrationSuccessful pin))
    (fun e => ret RegistrationFailed).

(** [register_user] before decoration. *)
Definition register_user_wrapped (message : message) : M reply :=
  let user_id := str (from_user_id message) in
  lang <- get_user_language fault user_id ;;
  school_level <- get_user_school_level fault user_id ;;
  match school_level with
  | None => ret SelectSchoolLevelFirst
  | Some school_level =>
      match split (text message) with
      | [_; grade_section; student_no] =>
          if negb (str_in grade_section (valid_sections school_level)) then
            ret InvalidSection
          else if negb (isdigit student_no)
                  || negb ((1 <=? int student_no) && (int student_no <=? 60)) then
            ret InvalidStudentNumber
          else
            existing_user <-
              db_execute fault (SELECT_grade_section_student_no user_id) true ;;
            if result_truthy existing_user then ret AlreadyRegistered
            else store_registration grade_section student_no user_id school_level
      | _ =>
          usage <- lift_outcome (register_usage lang) ;;
          ret (RegisterUsage usage)
      end
  end.

(** The [rate_limited] decorator; [now] is the clock reading of the
    check it makes. *)
Definition rate_limited (func : message -> M reply) (now : Z)
    (message : message) : M reply :=
  limited <- is_rate_limited_step (str (from_user_id message)) now ;;
  if limited then
    get_user_language fault (str (from_user_id message)) ;;;
    ret TooManyRequests
  else func message.

Definition register_user : Z -> message -> M reply :=
  rate_limited register_user_wrapped.

(** A run of registrations through the storing step, one per request. *)
Fixpoint store_registrations
    (requests : list (string * string * string * SchoolLevel)) : M (list reply) :=
  match requests with
  | [] => ret []
  | (grade_section, student_no, user_id, school_level) :: rest =>
      r <- store_registration grade_section student_no user_id school_level ;;
      rs <- store_registrations rest ;;
      ret (r :: rs)
  end.

End Handlers.

(** The PINs handed out by a run of registrations. *)
Fixpoint issued_pins (replies : list reply) : list string :=
  match replies with
  | [] => []
  | RegistrationSuccessful pin :: rest => pin :: issued_pins rest
  | _ :: rest => issued_pins rest
  end.

(** ** Vocabulary of the statements *)

(** The subject counts the two levels are expected to have. *)
Definition subject_count (l : SchoolLevel) : nat :=
  match l with
  | ELEMENTARY => 8
  | MIDDLE => 11
  end.

(** The length of the rate limiter's window, as a [timedelta]. *)
Definition window : Z := timedelta_seconds Config.RATE_LIMIT_period.

(** A PIN as the data model describes it: exactly 6 ASCII digits. *)
Definition is_pin (s : string) : bool :=
  (String.length s =? 6)%nat && all_chars isdigit_char s.

(** The identifier row that a registration writes. *)
Definition registration_row (grade_section student_no user_id : string)
    (school_level : SchoolLevel) : identifier_row :=
  mk_identifier_row (Some grade_section) (Some student_no) (Some user_id)
                    (Some (SchoolLevel_value school_level)).

(** Nothing but the call counters differs between two worlds. *)
Definition same_state (w w' : world) : Prop :=
  users w' = users w /\
  student_identifiers w' = student_identifiers w /\
  user_attempts w' = user_attempts w.

(** The identity has completed a registration: its row carries a grade
    and section, a student number and a PIN, and the PIN is a key of
    [student_identifiers] owned by the identity. *)
Definition registered (w : world) (user_id : string) : Prop :=
  exists r gs sn pin i,
    users w !! user_id = Some r /\
    u_grade_section r = Some gs /\
    u_student_no r = Some sn /\
    u_pin r = Some pin /\
    student_identifiers w !! pin = Some i /\
    i_telegram_id i = Some user_id.


(** A second [/register] is answered with "already registered" and
    changes nothing. *)
Definition answers_already_registered (fault : nat -> bool) (entropy : nat -> Z)
    (now : Z) (m : message) (w : world) : Prop :=
  let '(r, w') := register_user fault entropy now m w in
  r = Ok AlreadyRegistered /\ same_state w w'.

(** ** Scenarios *)

(** The server answers every round trip. *)
Definition no_fault : nat -> bool := fun _ => false.

(** Only the round trip number [k] (counting from 0) fails. *)
Definition fault_at (k : nat) : nat -> bool := fun n => Nat.eqb n k.

(** Identity 1 has chosen the middle school level and nothing else. *)
Definition middle_school_user : world :=
  mk_world
    {[ "1" := mk_user_row None None None (Some "en") (Some "middle") None ]}
    ∅ ∅ 0 0.

(** The same identity once the storing step has run for 7A, number 10,
    with the draw 424242. *)
Definition middle_school_user_registered : world :=
  snd (store_registration no_fault (fun _ => 424242) "7A" "10" "1" MIDDLE
         middle_school_user).

(** * The rest of the bot *)

(** ** Localization *)

(** The line feed that Python writes ["\n"]. *)
Definition LF : string := String (ascii_of_N 10) EmptyString.

(** The whole [MESSAGES] dictionary: language, then message key. *)
Definition MESSAGES : gmap string (gmap string string) :=
  list_to_map
   [
    ("en",
     list_to_map
      [
        ("welcome",
         "🎓 *Welcome to Selam Islamic School Results Bot* 🎓" ++ LF ++ LF ++ "Please select your school level:");
        ("select_school_level",
         "🏫 *Select Your School Level*");
        ("elementary",
         "🧒 Elementary School (Grades 1-6)");
        ("middle",
         "🧑 Middle School (Grades 7-8)");
        ("register_usage",
         "Usage: /register <grade_section> <student_no> (e.g., /register 7A 10)");
        ("login_usage",
         "Usage: /login <PIN> (e.g., /login 123456)");
        ("help",
         "📚 *Help*" ++ LF ++ LF ++ "- /start: Begin" ++ LF ++ "- /register: Get a PIN" ++ LF ++ "- /login: Access results" ++ LF ++ "- /help: Show this message") ]);
    ("am",
     list_to_map
      [
        ("welcome",
         "🎓 *እንኳን ወደ ሰላም እስላማዊ ትምህርት ቤት ውጤት ቦት ተግባቢ እንኳን ደህና መጡ* 🎓" ++ LF ++ LF ++ "እባክዎ የትምህርት ደረጃዎን ይምረጡ:");
        ("select_school_level",
         "🏫 *የትምህርት ደረጃ ይምረጡ*");
        ("elementary",
         "🧒 አንደኛ ደረጃ (ክፍል 1-6)");
        ("middle",
         "🧑 መካከለኛ ደረጃ (ክፍል 7-8)");
        ("register_usage",
         "አጠቃቀም: /register <grade_section> <student_no> (ለምሳሌ፣ /register 7A 10)");
        ("login_usage",
         "አጠቃቀም: /login <PIN> (ለምሳሌ፣ /login 123456)");
        ("help",
         "📚 *እገዛ*" ++ LF ++ LF ++ "- /start: ይጀምሩ" ++ LF ++ "- /register: ፒን ያግኙ" ++ LF ++ "- /login: ውጤቶችን ይመልከቱ" ++ LF ++ "- /help: ይህን መልዕክት ያሳያል") ]) ].

(** [MESSAGES[lang][key]]; a language or a key outside the dictionary
    raises [KeyError], and so does the language [None]. *)
Definition messages_lookup (lang : option string) (key : string) : outcome string :=
  match lang with
  | Some l =>
      match MESSAGES !! l with
      | Some d =>
          match d !! key with
          | Some text => Ok text
          | None => Raise KeyError
          end
      | None => Raise KeyError
      end
  | None => Raise KeyError
  end.

(** ** The [/start] and [/help] handlers *)

(** [types.InlineKeyboardButton(text, callback_data=...)] *)
Record InlineKeyboardButton : Type := mk_button {
  button_text : string;
  callback_data : string
}.

(** What [bot.reply_to(message, text, reply_markup=markup)] sends; the
    markup of a reply without one is the empty list. *)
Record sent : Type := mk_sent {
  sent_text : string;
  reply_markup : list InlineKeyboardButton
}.

Section OtherHandlers.

Variable fault : nat -> bool.

Definition send_welcome (message : message) : M sent :=
  let user_id := str (from_user_id message) in
  lang <- get_user_language fault user_id ;;
  elementary <- lift_outcome (messages_lookup lang "elementary") ;;
  middle <- lift_outcome (messages_lookup lang "middle") ;;
  welcome <- lift_outcome (messages_lookup lang "welcome") ;;
  ret (mk_sent welcome
         [mk_button elementary "school_level_elementary";
          mk_button middle "school_level_middle"]).

Definition send_help (message : message) : M sent :=
  lang <- get_user_language fault (str (from_user_id message)) ;;
  help <- lift_outcome (messages_lookup lang "help") ;;
  ret (mk_sent help []).

End OtherHandlers.

(** ** Workbook files *)

(** [Config.DATA_DIR] *)
Definition Config_DATA_DIR : string := "data/".

(** The [file_path] that [get_workbook] hands to [load_workbook]:
    [f"{Config.DATA_DIR}{school_level.value}/{grade_section}.xlsx"]. *)
Definition workbook_file_path (grade_section : string)
    (school_level : SchoolLevel) : string :=
  Config_DATA_DIR ++ SchoolLevel_value school_level ++ "/"
    ++ grade_section ++ ".xlsx".

(** ** Vocabulary of the further statements *)

(** The PIN that the [i]-th draw from now on produces. *)
Definition nth_draw (entropy : nat -> Z) (w : world) (i : nat) : string :=
  format_0d 6 (randbelow (entropy (i + rand_calls w)%nat) 1000000).

(** The world after [k] rounds of the loop of [generate_unique_pin]:
    [k] draws and [k] round trips later, nothing else changed. *)
Definition after_rounds (k : nat) (w : world) : world :=
  mk_world (users w) (student_identifiers w) (user_attempts w)
           (k + db_calls w) (k + rand_calls w).

(** Identity 3 has a row without a school level, identity 4 a row of
    the middle level without a language. *)
Definition user_without_level : world :=
  mk_world {[ "3" := mk_user_row None None None (Some "en") None None ]} ∅ ∅ 0 0.

Definition user_without_language : world :=
  mk_world {[ "4" := mk_user_row None None None None (Some "middle") None ]}
           ∅ ∅ 0 0.

(** A run in which identity 1 checks eight times, once interleaved
    with identity 2. *)
Definition interleaved_run : list (string * Z) :=
  [("1", 0); ("1", 1); ("2", 2); ("1", 3); ("1", 4); ("1", 5); ("1", 6);
   ("1", 59999999); ("1", 60000000)].

(** The keys of the messages of one language. *)
Definition message_keys : list string :=
  ["welcome"; "select_school_level"; "elementary"; "middle"; "register_usage";
   "login_usage"; "help"].

(** The language a handler works with: the stored one, en without a row. *)
Definition language_of (w : world) (user_id : string) : option string :=
  match users w !! user_id with
  | Some r => u_language r
  | None => Some "en"
  end.

(** The test that lets a student number through (line 275, negated). *)
Definition valid_student_no (student_no : string) : bool :=
  negb (negb (isdigit student_no)
        || negb ((1 <=? int student_no) && (int student_no <=? 60))).

(** The clock readings of the checks of [user_id] that a run allows. *)
Fixpoint allowed_times (user_id : string) (calls : list (string * Z))
    (attempts_of : gmap string (list Z)) : list Z :=
  match calls with
  | [] => []
  | (u, now) :: rest =>
      let '(blocked, attempts_of) := is_rate_limited u now attempts_of in
      if negb blocked && String.eqb u user_id
      then now :: allowed_times user_id rest attempts_of
      else allowed_times user_id rest attempts_of
  end.

(** The clock never goes back during a run that starts at [c]. *)
Fixpoint clock_monotone (c : Z) (calls : list (string * Z)) : Prop :=
  match calls with
  | [] => True
  | (_, now) :: rest => c <= now /\ clock_monotone now rest
  end.

(** [t] lies in the span of one window that starts at [lo]. *)
Definition in_span (lo : Z) (t : Z) : bool :=
  (lo <=? t) && (t <? lo + timedelta_seconds Config.RATE_LIMIT_period).

(** The calls of a run made by [user_id]. *)
Definition calls_of (user_id : string) (calls : list (string * Z)) :
    list (string * Z) :=
  List.filter (fun c => String.eqb (fst c) user_id) calls.

(** * Properties *)

(** ** Python primitives *)

Example split_register_command :
  split "/register 7A  10 " = ["/register"; "7A"; "10"] /\
  split "/register" = ["/register"] /\
  split "  " = [].
Proof. repeat split; reflexivity. Qed.

Example isdigit_cases :
  isdigit "10" = true /\ isdigit "" = false /\ isdigit "1O" = false /\
  isdigit "-3" = false /\ int "010" = 10.
Proof. repeat split; reflexivity. Qed.

Example str_cases :
  str 5551234567 = "5551234567" /\ str (-17) = "-17" /\ str 0 = "0" /\
  format_0d 6 42 = "000042" /\ format_0d 6 1234567 = "1234567" /\
  format_0d 6 (-5) = "-00005".
Proof. repeat split; vm_compute; reflexivity. Qed.

Lemma N_of_digit_char (d : Z) :
  0 <= d < 10 -> Z.of_N (N_of_ascii (digit_char d)) - 48 = d.
Proof.
  intros Hd.
  assert (H : d = 0 \/ d = 1 \/ d = 2 \/ d = 3 \/ d = 4 \/
              d = 5 \/ d = 6 \/ d = 7 \/ d = 8 \/ d = 9) by lia.
  repeat (destruct H as [-> | H]; [reflexivity |]). subst d. reflexivity.
Qed.

(** Reading back the digits written in front of [acc] gives the number
    written, provided the fuel covers its digits. *)
Lemma int_from_decimal_digits (fuel : nat) (n a : Z) (acc : string) :
  0 <= n < 10 ^ Z.of_nat (S fuel) ->
  exists k, 0 <= k /\
    int_from a (decimal_digits fuel n acc) = int_from (a * 10 ^ k + n) acc.
Proof.
  revert n a acc. induction fuel as [| fuel IH]; intros n a acc Hn.
  - exists 1. split; [lia |]. simpl decimal_digits. simpl int_from.
    rewrite N_of_digit_char by (apply Z.mod_pos_bound; lia).
    rewrite Z.mod_small by (simpl in Hn; lia). f_equal. lia.
  - simpl decimal_digits.
    destruct (Z.eqb_spec (n / 10) 0) as [Hz | Hnz].
    + exists 1. split; [lia |]. simpl int_from.
      rewrite N_of_digit_char by (apply Z.mod_pos_bound; lia).
      f_equal. pose proof (Z.div_mod n 10 ltac:(lia)) as Hdm. lia.
    + assert (Hdiv : 0 <= n / 10 < 10 ^ Z.of_nat (S fuel)).
      { split; [apply Z.div_pos; lia |].
        apply Z.div_lt_upper_bound; [lia |].
        rewrite <- Z.pow_succ_r by lia.
        replace (Z.succ (Z.of_nat (S fuel))) with (Z.of_nat (S (S fuel))) by lia.
        lia. }
      destruct (IH (n / 10) a (String (digit_char (n mod 10)) acc) Hdiv)
        as (k & Hk & Heq).
      exists (k + 1). split; [lia |]. rewrite Heq. simpl int_from.
      rewrite N_of_digit_char by (apply Z.mod_pos_bound; lia).
      f_equal. rewrite Z.pow_add_r by lia.
      pose proof (Z.div_mod n 10 ltac:(lia)) as Hdm. lia.
Qed.

(** [int(str(n)) == n] for a natural number: the digits of [str] are the
    right ones, so distinct identities have distinct keys. *)
Lemma int_str_nonneg (n : Z) : 0 <= n -> int (str_nonneg n) = n.
Proof.
  intros Hn. unfold int, str_nonneg.
  destruct (int_from_decimal_digits (Z.to_nat (Z.log2 n)) n 0 EmptyString)
    as (k & _ & Heq).
  - split; [exact Hn |].
    destruct (Z.eq_dec n 0) as [-> | Hnz]; [simpl; lia |].
    rewrite Nat2Z.inj_succ, Z2Nat.id by apply Z.log2_nonneg.
    pose proof (Z.log2_spec n ltac:(lia)) as [_ Hup].
    eapply Z.lt_le_trans; [exact Hup |].
    apply Z.pow_le_mono_l. lia.
  - rewrite Heq. simpl. lia.
Qed.

(** ** Static tables *)

(** C7.  For each school level, each term among S1, S2 and Ave and each
    language among en and am, both tables have an entry, and the number
    of subject columns of the term equals the number of subject names of
    the language: 8 for elementary, 11 for middle. *)
Theorem column_mapping_matches_subjects (level : SchoolLevel) (term lang : string) :
  In term ["S1"; "S2"; "Ave"] ->
  In lang ["en"; "am"] ->
  exists m names,
    column_mapping level !! term = Some m /\
    subjects level !! lang = Some names /\
    length (cm_subjects m) = length names /\
    length names = subject_count level.
Proof.
  intros Hterm Hlang. simpl in Hterm, Hlang.
  destruct Hterm as [<- | [<- | [<- | []]]];
    destruct Hlang as [<- | [<- | []]];
    destruct level;
    (eexists; eexists; split; [vm_compute; reflexivity |
                               split; [vm_compute; reflexivity | split; reflexivity]]).
Qed.

Lemma column_mapping_matches_subjects_witness :
  exists m names,
    column_mapping MIDDLE !! "Ave" = Some m /\
    subjects MIDDLE !! "am" = Some names /\
    length (cm_subjects m) = length names /\
    length names = subject_count MIDDLE.
Proof.
  apply (column_mapping_matches_subjects MIDDLE "Ave" "am"); simpl; auto.
Defined.

(** The tables have no other terms and no other languages. *)
Lemma column_mapping_terms (level : SchoolLevel) (term : string) :
  is_Some (column_mapping level !! term) -> In term ["S1"; "S2"; "Ave"].
Proof.
  intros [m Hm]. simpl.
  destruct (String.eqb_spec "S1" term) as [|n1]; [auto|].
  destruct (String.eqb_spec "S2" term) as [|n2]; [auto|].
  destruct (String.eqb_spec "Ave" term) as [|n3]; [auto|].
  exfalso. destruct level; unfold column_mapping, ColumnMapping.ELEMENTARY,
    ColumnMapping.MIDDLE in Hm; simpl in Hm;
    rewrite !lookup_insert_ne in Hm by assumption;
    rewrite lookup_empty in Hm; discriminate.
Qed.

(** ** Cell values *)

(** C9.  [get_value] never raises: a cell whose value is not [None]
    yields that value, and an absent cell ([None]) or a cell whose value
    is [None] yields ['N/A']; every other argument yields ['N/A'] too. *)
Theorem get_value_total (cell : pyobj) :
  (forall v, cell = PyCell v -> v <> PyNone -> get_value cell = Ok v) /\
  (cell = PyNone -> get_value cell = Ok (PyStr "N/A")) /\
  (cell = PyCell PyNone -> get_value cell = Ok (PyStr "N/A")) /\
  (exists r, get_value cell = Ok r).
Proof.
  repeat split.
  - intros v -> Hv. destruct v; try reflexivity. contradiction.
  - intros ->. reflexivity.
  - intros ->. reflexivity.
  - unfold get_value. destruct cell as [| s | n | bits | b | v]; simpl;
      try (destruct (negb _); eauto); try (destruct b; eauto); eauto.
    destruct v; simpl; eauto.
Qed.

Lemma get_value_total_witness :
  get_value (PyCell (PyInt 87)) = Ok (PyInt 87) /\
  get_value PyNone = Ok (PyStr "N/A") /\
  get_value (PyCell PyNone) = Ok (PyStr "N/A").
Proof.
  split; [| split].
  - apply (proj1 (get_value_total (PyCell (PyInt 87))) (PyInt 87));
      [reflexivity | discriminate].
  - apply (proj1 (proj2 (get_value_total PyNone))). reflexivity.
  - apply (proj1 (proj2 (proj2 (get_value_total (PyCell PyNone))))). reflexivity.
Defined.

(** The closed form: only a cell with a value other than [None] gives
    something else than ['N/A']. *)
Lemma get_value_eq (cell : pyobj) :
  get_value cell =
  Ok (match cell with
      | PyCell PyNone => PyStr "N/A"
      | PyCell v => v
      | _ => PyStr "N/A"
      end).
Proof.
  destruct cell as [| s | n | bits | b | v]; unfold get_value; simpl;
    try reflexivity.
  - destruct (negb _); reflexivity.
  - destruct (negb _); reflexivity.
  - destruct (negb _); reflexivity.
  - destruct b; reflexivity.
  - destruct v; reflexivity.
Qed.

(** ** Rate limiting *)

Lemma filter_keep_all {A : Type} (f : A -> bool) (l : list A) :
  Forall (fun x => f x = true) l -> List.filter f l = l.
Proof.
  induction 1 as [| x l Hx _ IH]; simpl; [reflexivity |].
  rewrite Hx, IH. reflexivity.
Qed.

Lemma filter_drop_all {A : Type} (f : A -> bool) (l : list A) :
  Forall (fun x => f x = false) l -> List.filter f l = [].
Proof.
  induction 1 as [| x l Hx _ IH]; simpl; [reflexivity |].
  rewrite Hx. exact IH.
Qed.

Lemma filter_shorter {A : Type} (f : A -> bool) (l : list A) :
  (length (List.filter f l) <= length l)%nat.
Proof.
  induction l as [| x l IH]; simpl; [lia |].
  destruct (f x); simpl; lia.
Qed.

(** An attempt while fewer than five earlier ones are still in the
    window is allowed and recorded. *)
Lemma is_rate_limited_allowed (user_id : string) (now : Z)
    (attempts_of : gmap string (list Z)) (stored : list Z) :
  attempts_of !!! user_id = stored ->
  Forall (fun t => now - t < window) stored ->
  (length stored < Config.RATE_LIMIT_max_attempts)%nat ->
  is_rate_limited user_id now attempts_of =
  (false, <[user_id := (stored ++ [now])%list]> attempts_of).
Proof.
  intros Hs Hin Hlen. unfold is_rate_limited. rewrite Hs.
  rewrite filter_keep_all.
  - destruct (Nat.leb_spec Config.RATE_LIMIT_max_attempts (length stored)); [lia |].
    rewrite insert_insert_eq. reflexivity.
  - eapply Forall_impl; [exact Hin |]. intros t Ht. simpl in Ht.
    apply Z.ltb_lt. exact Ht.
Qed.

(** An attempt while five earlier ones are still in the window is
    blocked and not recorded. *)
Lemma is_rate_limited_blocked (user_id : string) (now : Z)
    (attempts_of : gmap string (list Z)) (stored : list Z) :
  attempts_of !!! user_id = stored ->
  Forall (fun t => now - t < window) stored ->
  (Config.RATE_LIMIT_max_attempts <= length stored)%nat ->
  is_rate_limited user_id now attempts_of =
  (true, <[user_id := stored]> attempts_of).
Proof.
  intros Hs Hin Hlen. unfold is_rate_limited. rewrite Hs.
  rewrite filter_keep_all.
  - destruct (Nat.leb_spec Config.RATE_LIMIT_max_attempts (length stored)); [| lia].
    reflexivity.
  - eapply Forall_impl; [exact Hin |]. intros t Ht. simpl in Ht.
    apply Z.ltb_lt. exact Ht.
Qed.

(** An attempt after every stored one has left the window is allowed,
    and the stored ones are dropped. *)
Lemma is_rate_limited_expired (user_id : string) (now : Z)
    (attempts_of : gmap string (list Z)) (stored : list Z) :
  attempts_of !!! user_id = stored ->
  Forall (fun t => window <= now - t) stored ->
  is_rate_limited user_id now attempts_of =
  (false, <[user_id := [now]]> attempts_of).
Proof.
  intros Hs Hout. unfold is_rate_limited. rewrite Hs.
  rewrite filter_drop_all.
  - simpl. rewrite insert_insert_eq. reflexivity.
  - eapply Forall_impl; [exact Hout |]. intros t Ht. simpl in Ht.
    apply Z.ltb_ge. exact Ht.
Qed.

Ltac in_window :=
  repeat constructor;
  unfold window, timedelta_seconds, Config.RATE_LIMIT_period in *; lia.

Ltac count_stored :=
  unfold Config.RATE_LIMIT_max_attempts; simpl; lia.

(** C4.  Threshold 5, window 60 seconds.  For an identity without
    recorded attempts, five checks at non-decreasing times are all
    allowed; a sixth check less than 60 seconds after the first is
    blocked; a check made once 60 seconds have passed since the last
    recorded attempt is allowed again. *)
Theorem rate_limit_five_then_block_then_allow (user_id : string)
    (attempts_of : gmap string (list Z)) (t1 t2 t3 t4 t5 t6 t7 : Z) :
  attempts_of !!! user_id = [] ->
  t1 <= t2 -> t2 <= t3 -> t3 <= t4 -> t4 <= t5 -> t5 <= t6 ->
  t6 - t1 < timedelta_seconds 60 ->
  timedelta_seconds 60 <= t7 - t5 ->
  Config.RATE_LIMIT_max_attempts = 5%nat /\
  Config.RATE_LIMIT_period = 60 /\
  fst (rate_limit_checks
         [(user_id, t1); (user_id, t2); (user_id, t3); (user_id, t4);
          (user_id, t5); (user_id, t6); (user_id, t7)] attempts_of)
  = [false; false; false; false; false; true; false].
Proof.
  intros H0 H12 H23 H34 H45 H56 Hin Hout.
  split; [reflexivity |]. split; [reflexivity |].
  unfold rate_limit_checks.
  rewrite (is_rate_limited_allowed user_id t1 _ []);
    [| exact H0 | in_window | count_stored].
  rewrite (is_rate_limited_allowed user_id t2 _ [t1]);
    [| apply lookup_total_insert_eq | in_window | count_stored].
  rewrite (is_rate_limited_allowed user_id t3 _ [t1; t2]);
    [| apply lookup_total_insert_eq | in_window | count_stored].
  rewrite (is_rate_limited_allowed user_id t4 _ [t1; t2; t3]);
    [| apply lookup_total_insert_eq | in_window | count_stored].
  rewrite (is_rate_limited_allowed user_id t5 _ [t1; t2; t3; t4]);
    [| apply lookup_total_insert_eq | in_window | count_stored].
  rewrite (is_rate_limited_blocked user_id t6 _ [t1; t2; t3; t4; t5]);
    [| apply lookup_total_insert_eq | in_window | count_stored].
  rewrite (is_rate_limited_expired user_id t7 _ [t1; t2; t3; t4; t5]);
    [| apply lookup_total_insert_eq | in_window].
  reflexivity.
Qed.

Lemma rate_limit_five_then_block_then_allow_witness :
  Config.RATE_LIMIT_max_attempts = 5%nat /\
  Config.RATE_LIMIT_period = 60 /\
  fst (rate_limit_checks
         [("1", 0); ("1", 1000000); ("1", 2000000); ("1", 3000000);
          ("1", 4000000); ("1", 59999999); ("1", 64000000)] ∅)
  = [false; false; false; false; false; true; false].
Proof.
  apply (rate_limit_five_then_block_then_allow "1" ∅
           0 1000000 2000000 3000000 4000000 59999999 64000000);
    [reflexivity | lia | lia | lia | lia | lia | vm_compute; reflexivity
     | vm_compute; discriminate].
Defined.

(** One check keeps every identity's list within the threshold. *)
Lemma is_rate_limited_bounded (user_id : string) (now : Z)
    (attempts_of : gmap string (list Z)) :
  (forall u, (length (attempts_of !!! u) <= Config.RATE_LIMIT_max_attempts)%nat) ->
  forall u,
    (length (snd (is_rate_limited user_id now attempts_of) !!! u)
     <= Config.RATE_LIMIT_max_attempts)%nat.
Proof.
  intros Hinv u. unfold is_rate_limited.
  set (kept := List.filter _ _).
  assert (Hkept : (length kept <= Config.RATE_LIMIT_max_attempts)%nat).
  { unfold kept. etransitivity; [apply filter_shorter | apply Hinv]. }
  destruct (Nat.leb_spec Config.RATE_LIMIT_max_attempts (length kept)) as [Hge | Hlt];
    simpl; destruct (decide (user_id = u)) as [-> | Hne].
  - rewrite lookup_total_insert_eq. exact Hkept.
  - rewrite lookup_total_insert_ne by exact Hne. apply Hinv.
  - rewrite lookup_total_insert_eq. rewrite length_app. simpl. lia.
  - rewrite !lookup_total_insert_ne by exact Hne. apply Hinv.
Qed.

Lemma rate_limit_checks_bounded (calls : list (string * Z))
    (attempts_of : gmap string (list Z)) :
  (forall u, (length (attempts_of !!! u) <= Config.RATE_LIMIT_max_attempts)%nat) ->
  forall u,
    (length (snd (rate_limit_checks calls attempts_of) !!! u)
     <= Config.RATE_LIMIT_max_attempts)%nat.
Proof.
  revert attempts_of.
  induction calls as [| [user_id now] rest IH]; intros attempts_of Hinv u.
  - simpl. apply Hinv.
  - simpl.
    pose proof (is_rate_limited_bounded user_id now attempts_of Hinv) as Hstep.
    destruct (is_rate_limited user_id now attempts_of) as [b a1]. simpl in Hstep.
    specialize (IH a1 Hstep u).
    destruct (rate_limit_checks rest a1) as [bs a2]. exact IH.
Qed.

(** C8.  Starting from the empty dictionary of a fresh process, after
    any run of checks, by any callers at any clock readings, no
    identity has more than 5 stored timestamps. *)
Theorem user_attempts_never_exceed_threshold (calls : list (string * Z))
    (user_id : string) :
  (length (snd (rate_limit_checks calls ∅) !!! user_id) <= 5)%nat.
Proof.
  apply (rate_limit_checks_bounded calls ∅).
  intros u. rewrite lookup_total_empty. simpl. unfold Config.RATE_LIMIT_max_attempts. lia.
Qed.

(** ** PINs *)

Lemma digit_char_isdigit (d : Z) :
  0 <= d < 10 -> isdigit_char (digit_char d) = true.
Proof.
  intros Hd.
  assert (H : d = 0 \/ d = 1 \/ d = 2 \/ d = 3 \/ d = 4 \/
              d = 5 \/ d = 6 \/ d = 7 \/ d = 8 \/ d = 9) by lia.
  repeat (destruct H as [-> | H]; [reflexivity |]). subst d. reflexivity.
Qed.

Lemma decimal_digits_isdigit (fuel : nat) (n : Z) (acc : string) :
  all_chars isdigit_char acc = true ->
  all_chars isdigit_char (decimal_digits fuel n acc) = true.
Proof.
  revert n acc. induction fuel as [| fuel IH]; intros n acc Hacc; simpl.
  - rewrite digit_char_isdigit by (apply Z.mod_pos_bound; lia). exact Hacc.
  - destruct (n / 10 =? 0).
    + simpl. rewrite digit_char_isdigit by (apply Z.mod_pos_bound; lia). exact Hacc.
    + apply IH. simpl.
      rewrite digit_char_isdigit by (apply Z.mod_pos_bound; lia). exact Hacc.
Qed.

Lemma decimal_digits_length (fuel : nat) (n : Z) (acc : string) (k : nat) :
  0 <= n < 10 ^ Z.of_nat (S k) ->
  (String.length (decimal_digits fuel n acc) <= S k + String.length acc)%nat.
Proof.
  revert n acc k. induction fuel as [| fuel IH]; intros n acc k Hn; simpl.
  - lia.
  - destruct (Z.eqb_spec (n / 10) 0) as [Hz | Hnz]; simpl; [lia |].
    destruct k as [| k].
    + exfalso. apply Hnz. apply Z.div_small. simpl in Hn. lia.
    + specialize (IH (n / 10) (String (digit_char (n mod 10)) acc) k).
      simpl String.length in IH.
      assert (Hdiv : 0 <= n / 10 < 10 ^ Z.of_nat (S k)).
      { split; [apply Z.div_pos; lia |].
        apply Z.div_lt_upper_bound; [lia |].
        rewrite <- Z.pow_succ_r by lia.
        replace (Z.succ (Z.of_nat (S k))) with (Z.of_nat (S (S k))) by lia.
        lia. }
      specialize (IH Hdiv). lia.
Qed.

Lemma zeros_length (k : nat) (s : string) :
  String.length (zeros k s) = (k + String.length s)%nat.
Proof. induction k as [| k IH]; simpl; [reflexivity | rewrite IH; reflexivity]. Qed.

Lemma zeros_isdigit (k : nat) (s : string) :
  all_chars isdigit_char s = true -> all_chars isdigit_char (zeros k s) = true.
Proof. intros Hs. induction k as [| k IH]; simpl; [exact Hs | exact IH]. Qed.

(** A number below one million is printed by [:06d] as six digits. *)
Lemma format_0d_is_pin (n : Z) :
  0 <= n < 1000000 -> is_pin (format_0d 6 n) = true.
Proof.
  intros Hn. unfold format_0d.
  destruct (Z.ltb_spec n 0) as [Hneg | _]; [lia |].
  unfold str_nonneg.
  pose proof (decimal_digits_length (Z.to_nat (Z.log2 n)) n EmptyString 5 Hn) as Hlen.
  simpl String.length in Hlen.
  unfold is_pin. apply andb_true_intro. split.
  - apply Nat.eqb_eq. rewrite zeros_length. lia.
  - apply zeros_isdigit. apply decimal_digits_isdigit. reflexivity.
Qed.

Section StoreProperties.

Variable fault : nat -> bool.
Variable entropy : nat -> Z.

Lemma draw_pin_spec (w : world) :
  exists pin,
    draw_pin entropy w = (Ok pin, next_rand_call w) /\ is_pin pin = true.
Proof.
  eexists. split; [reflexivity |].
  apply format_0d_is_pin. unfold randbelow. apply Z.mod_pos_bound. lia.
Qed.

(** PIN generation writes nothing, and a PIN it returns has six digits
    and is not a key of [student_identifiers]. *)
Lemma generate_unique_pin_loop_spec (n : nat) (w : world) :
  let '(r, w') := generate_unique_pin_loop fault entropy n w in
  same_state w w' /\
  match r with
  | Ok pin => student_identifiers w !! pin = None /\ is_pin pin = true
  | Raise _ => True
  end.
Proof.
  revert w. induction n as [| n IH]; intros w.
  - simpl. unfold raise, same_state. auto.
  - simpl. unfold bind.
    destruct (draw_pin_spec w) as (pin & -> & Hpin).
    unfold db_execute. simpl.
    destruct (fault (db_calls w)); [unfold same_state; simpl; auto |].
    unfold select_by_key. simpl.
    destruct (student_identifiers w !! pin) as [row |] eqn:Hrow; simpl.
    + specialize (IH (next_db_call (next_rand_call w))).
      destruct (generate_unique_pin_loop fault entropy n _) as [r w'].
      exact IH.
    + unfold ret, same_state. simpl. auto.
Qed.

Lemma generate_unique_pin_spec (w : world) :
  let '(r, w') := generate_unique_pin fault entropy w in
  same_state w w' /\
  match r with
  | Ok pin => student_identifiers w !! pin = None /\ is_pin pin = true
  | Raise _ => True
  end.
Proof. apply generate_unique_pin_loop_spec. Qed.

End StoreProperties.

(** ** The storing step of [/register] *)

Section RegistrationProperties.

Variable fault : nat -> bool.
Variable entropy : nat -> Z.

(** The four ways the storing step can end.  The rate limiter's
    dictionary is never touched. *)
Lemma store_registration_cases (gs sn uid : string) (lvl : SchoolLevel) (w : world) :
  let '(r, w') := store_registration fault entropy gs sn uid lvl w in
  user_attempts w' = user_attempts w /\
  ((exists pin,
       r = Ok (RegistrationSuccessful pin) /\
       is_pin pin = true /\
       student_identifiers w !! pin = None /\
       student_identifiers w' =
         <[pin := registration_row gs sn uid lvl]> (student_identifiers w) /\
       users w' = alter (set_registration gs sn pin) uid (users w))
   \/
   (r = Ok RegistrationFailed /\
    users w' = users w /\
    student_identifiers w' = student_identifiers w)
   \/
   (r = Ok RegistrationFailed /\
    users w' = users w /\
    fault (pred (db_calls w')) = true /\
    exists pin,
      student_identifiers w !! pin = None /\
      student_identifiers w' =
        <[pin := registration_row gs sn uid lvl]> (student_identifiers w))
   \/
   (r = Ok RegistrationFailed /\
    fault (pred (db_calls w')) = true /\
    exists pin,
      student_identifiers w !! pin = None /\
      student_identifiers w' =
        <[pin := registration_row gs sn uid lvl]> (student_identifiers w) /\
      users w' = alter (set_registration gs sn pin) uid (users w))).
Proof.
  unfold store_registration, try_except, bind.
  pose proof (generate_unique_pin_spec fault entropy w) as Hg.
  destruct (generate_unique_pin fault entropy w) as [[pin | e] w1].
  - destruct Hg as ((Hu & Hi & Ha) & Hnone & Hpin).
    unfold db_execute at 1.
    destruct (fault (db_calls w1)) eqn:F1.
    { unfold ret. simpl. split; [exact Ha |]. right; left. auto. }
    unfold cur_execute. simpl student_identifiers.
    rewrite Hi, Hnone.
    unfold db_execute. simpl db_calls.
    destruct (fault (S (db_calls w1))) eqn:F2.
    + unfold ret. simpl. split; [exact Ha |]. right; right; left.
      rewrite F2, Hu, Hi. repeat split; eauto.
    + unfold bot_reply_to. simpl.
      destruct (fault (S (S (db_calls w1)))) eqn:F3.
      * unfold ret. simpl. split; [exact Ha |]. right; right; right.
        rewrite F3, Hu, Hi. split; [reflexivity |]. split; [reflexivity |].
        exists pin. auto.
      * simpl. split; [exact Ha |]. left.
        exists pin. rewrite Hu, Hi. repeat split; auto.
  - destruct Hg as ((Hu & Hi & Ha) & _).
    unfold ret. simpl. split; [exact Ha |]. right; left. auto.
Qed.

(** What a run of the storing step does to [student_identifiers]: rows
    are only added, and a PIN handed out was free before and is bound to
    the request's row after. *)
Lemma store_registration_step (gs sn uid : string) (lvl : SchoolLevel) (w : world) :
  let '(r, w') := store_registration fault entropy gs sn uid lvl w in
  exists reply,
    r = Ok reply /\
    (forall pin row,
        student_identifiers w !! pin = Some row ->
        student_identifiers w' !! pin = Some row) /\
    (forall pin,
        reply = RegistrationSuccessful pin ->
        student_identifiers w !! pin = None /\
        student_identifiers w' !! pin = Some (registration_row gs sn uid lvl)).
Proof.
  pose proof (store_registration_cases gs sn uid lvl w) as H.
  destruct (store_registration fault entropy gs sn uid lvl w) as [r w'].
  destruct H as [_ [(pin & -> & _ & Hnone & Hi & _)
                   | [(-> & _ & Hi)
                     | [(-> & _ & _ & pin & Hnone & Hi)
                       | (-> & _ & pin & Hnone & Hi & _)]]]].
  - exists (RegistrationSuccessful pin). split; [reflexivity |]. split.
    + intros p row Hp. rewrite Hi. rewrite lookup_insert_ne; [exact Hp |].
      intros ->. congruence.
    + intros p [= <-]. split; [exact Hnone |]. rewrite Hi. apply lookup_insert_eq.
  - exists RegistrationFailed. split; [reflexivity |]. split.
    + intros p row Hp. rewrite Hi. exact Hp.
    + intros p [=].
  - exists RegistrationFailed. split; [reflexivity |]. split.
    + intros p row Hp. rewrite Hi. rewrite lookup_insert_ne; [exact Hp |].
      intros ->. congruence.
    + intros p [=].
  - exists RegistrationFailed. split; [reflexivity |]. split.
    + intros p row Hp. rewrite Hi. rewrite lookup_insert_ne; [exact Hp |].
      intros ->. congruence.
    + intros p [=].
Qed.

(** A successful run of the storing step for an identity with a row in
    [users] leaves the identity registered. *)
Lemma store_registration_registers (gs sn uid : string) (lvl : SchoolLevel)
    (w w' : world) (pin : string) :
  store_registration fault entropy gs sn uid lvl w
    = (Ok (RegistrationSuccessful pin), w') ->
  is_Some (users w !! uid) ->
  registered w' uid.
Proof.
  intros Hrun [r Hr].
  pose proof (store_registration_cases gs sn uid lvl w) as H.
  rewrite Hrun in H.
  destruct H as [_ [(p & [= <-] & _ & _ & Hi & Hu)
                   | [([=] & _) | [([=] & _) | ([=] & _)]]]].
  exists (set_registration gs sn pin r), gs, sn, pin, (registration_row gs sn uid lvl).
  rewrite Hu, Hi, lookup_alter_eq, Hr, lookup_insert_eq.
  repeat split; reflexivity.
Qed.

End RegistrationProperties.

(** C1.  When the storing step of [/register] reports success, looking
    the returned PIN up in [student_identifiers] right afterwards gives
    the row with the same grade and section, student number and school
    level, owned by the registering identity.  This holds for every
    triple, hence for every valid one. *)
Theorem register_then_lookup (fault : nat -> bool) (entropy : nat -> Z)
    (grade_section student_no user_id : string) (school_level : SchoolLevel)
    (w w' : world) (pin : string) :
  store_registration fault entropy grade_section student_no user_id school_level w
    = (Ok (RegistrationSuccessful pin), w') ->
  student_identifiers w' !! pin =
    Some (mk_identifier_row (Some grade_section) (Some student_no)
            (Some user_id) (Some (SchoolLevel_value school_level))).
Proof.
  intros Hrun.
  pose proof (store_registration_step fault entropy grade_section student_no
                user_id school_level w) as H.
  rewrite Hrun in H. destruct H as (reply & [= <-] & _ & Hnew).
  apply (Hnew pin). reflexivity.
Qed.

Lemma register_then_lookup_witness :
  student_identifiers middle_school_user_registered !! "424242" =
    Some (mk_identifier_row (Some "7A") (Some "10") (Some "1") (Some "middle")).
Proof.
  apply (register_then_lookup no_fault (fun _ => 424242) "7A" "10" "1" MIDDLE
           middle_school_user middle_school_user_registered "424242").
  vm_compute. reflexivity.
Defined.

Lemma store_registrations_spec (fault : nat -> bool) (entropy : nat -> Z)
    (requests : list (string * string * string * SchoolLevel)) (w : world) :
  exists replies,
    fst (store_registrations fault entropy requests w) = Ok replies /\
    length replies = length requests /\
    NoDup (issued_pins replies) /\
    (forall pin,
        In pin (issued_pins replies) ->
        student_identifiers w !! pin = None /\
        is_Some (student_identifiers
                   (snd (store_registrations fault entropy requests w)) !! pin)) /\
    (forall pin row,
        student_identifiers w !! pin = Some row ->
        student_identifiers
          (snd (store_registrations fault entropy requests w)) !! pin = Some row).
Proof.
  revert w.
  induction requests as [| [[[gs sn] uid] lvl] rest IH]; intros w.
  - exists []. simpl. repeat split; auto.
    + constructor.
    + contradiction.
    + contradiction.
  - simpl. unfold bind.
    pose proof (store_registration_step fault entropy gs sn uid lvl w) as Hstep.
    destruct (store_registration fault entropy gs sn uid lvl w) as [r w1].
    destruct Hstep as (reply & -> & Hkeep & Hnew).
    destruct (IH w1) as (replies & Hrun & Hlen & Hnodup & Hfresh & Hkeep').
    destruct (store_registrations fault entropy rest w1) as [rs w2].
    simpl in Hrun, Hfresh, Hkeep'. subst rs.
    exists (reply :: replies). unfold ret. simpl fst. simpl snd.
    split; [reflexivity |]. split; [simpl; congruence |].
    assert (Hold : forall p, In p (issued_pins replies) ->
                             student_identifiers w !! p = None).
    { intros p Hp. destruct (Hfresh p Hp) as [Hnone _].
      destruct (student_identifiers w !! p) as [row |] eqn:E; [| reflexivity].
      rewrite (Hkeep p row E) in Hnone. discriminate. }
    split; [| split].
    + destruct reply; simpl; try exact Hnodup.
      constructor; [| exact Hnodup].
      intros Hin. apply list_elem_of_In in Hin.
      destruct (Hfresh pin Hin) as [Hnone _].
      destruct (Hnew pin eq_refl) as [_ Hsome]. congruence.
    + intros p Hp.
      assert (Hcases : (reply = RegistrationSuccessful p) \/ In p (issued_pins replies)).
      { destruct reply; simpl in Hp; auto. destruct Hp as [-> | Hp]; auto. }
      destruct Hcases as [-> | Hp'].
      * destruct (Hnew p eq_refl) as [Hnone Hsome]. split; [exact Hnone |].
        rewrite (Hkeep' p _ Hsome). eauto.
      * split; [apply Hold; exact Hp' | apply (Hfresh p Hp')].
    + intros p row Hp. apply Hkeep'. apply Hkeep. exact Hp.
Qed.

(** C2.  Whatever the draws and the failures: a PIN returned by
    [generate_unique_pin] is not a key of [student_identifiers] at that
    moment; and in any run of registrations the PINs handed out are
    pairwise distinct, each was free before the run and is bound after
    it, and no row that was there is ever replaced. *)
Theorem issued_pins_are_distinct (fault : nat -> bool) (entropy : nat -> Z) :
  (forall w pin w',
      generate_unique_pin fault entropy w = (Ok pin, w') ->
      student_identifiers w' !! pin = None) /\
  (forall requests w,
      exists replies,
        fst (store_registrations fault entropy requests w) = Ok replies /\
        length replies = length requests /\
        NoDup (issued_pins replies) /\
        (forall pin,
            In pin (issued_pins replies) ->
            student_identifiers w !! pin = None /\
            is_Some (student_identifiers
                       (snd (store_registrations fault entropy requests w)) !! pin)) /\
        (forall pin row,
            student_identifiers w !! pin = Some row ->
            student_identifiers
              (snd (store_registrations fault entropy requests w)) !! pin
              = Some row)).
Proof.
  split.
  - intros w pin w' Hrun.
    pose proof (generate_unique_pin_spec fault entropy w) as H.
    rewrite Hrun in H. destruct H as ((_ & Hi & _) & Hnone & _).
    rewrite Hi. exact Hnone.
  - apply store_registrations_spec.
Qed.

Lemma issued_pins_are_distinct_witness :
  student_identifiers
    (snd (generate_unique_pin no_fault (fun _ => 5) middle_school_user)) !! "000005"
    = None /\
  exists replies,
    fst (store_registrations no_fault
           (fun n => match n with 0%nat => 5 | 1%nat => 5 | _ => 7 end)
           [("7A", "10", "1", MIDDLE); ("7B", "11", "2", MIDDLE)]
           middle_school_user) = Ok replies /\
    issued_pins replies = ["000005"; "000007"] /\
    NoDup (issued_pins replies).
Proof.
  split.
  - apply (proj1 (issued_pins_are_distinct no_fault (fun _ => 5))
             middle_school_user "000005").
    vm_compute. reflexivity.
  - destruct (proj2 (issued_pins_are_distinct no_fault
                       (fun n => match n with 0%nat => 5 | 1%nat => 5 | _ => 7 end))
                [("7A", "10", "1", MIDDLE); ("7B", "11", "2", MIDDLE)]
                middle_school_user) as (replies & Hrun & _ & Hnodup & _).
    exists replies. split; [exact Hrun |]. split; [| exact Hnodup].
    vm_compute in Hrun. injection Hrun as <-. reflexivity.
Defined.

(** When every draw is the same, the second registration finds its PIN
    taken a hundred times and fails. *)
Example constant_draws_exhaust_the_retries :
  fst (store_registrations no_fault (fun _ => 5)
         [("7A", "10", "1", MIDDLE); ("7B", "11", "2", MIDDLE)]
         middle_school_user)
  = Ok [RegistrationSuccessful "000005"; RegistrationFailed].
Proof. vm_compute. reflexivity. Qed.



(** The other late failure: the server answers the three statements and
    the sending of the success message fails; the identity is told that
    the registration failed, and is registered. *)
Example registration_failed_but_stored :
  fst (store_registration (fault_at 3) (fun _ => 424242) "7A" "10" "1" MIDDLE
         middle_school_user) = Ok RegistrationFailed /\
  registered
    (snd (store_registration (fault_at 3) (fun _ => 424242) "7A" "10" "1" MIDDLE
            middle_school_user)) "1".
Proof.
  split; [vm_compute; reflexivity |].
  exists (mk_user_row (Some "7A") (Some "10") (Some "424242")
            (Some "en") (Some "middle") None),
         "7A", "10", "424242", (registration_row "7A" "10" "1" MIDDLE).
  repeat split; vm_compute; reflexivity.
Qed.

(** ** Lookups in [users] *)

Section LookupProperties.

Variable fault : nat -> bool.

Lemma get_user_language_eq (user_id : string) (w : world) :
  get_user_language fault user_id w =
  (if fault (db_calls w) then Raise OperationalError
   else match users w !! user_id with
        | Some r => Ok (u_language r)
        | None => Ok (Some "en")
        end,
   next_db_call w).
Proof.
  unfold get_user_language, bind, db_execute.
  destruct (fault (db_calls w)); [reflexivity |].
  simpl. unfold select_by_key. simpl.
  destruct (users w !! user_id); reflexivity.
Qed.

Lemma get_user_school_level_eq (user_id : string) (w : world) :
  get_user_school_level fault user_id w =
  (if fault (db_calls w) then Raise OperationalError
   else match users w !! user_id with
        | Some r =>
            match SchoolLevel_of (u_school_level r) with
            | Ok l => Ok (Some l)
            | Raise e => Raise e
            end
        | None => Ok None
        end,
   next_db_call w).
Proof.
  unfold get_user_school_level, bind, db_execute.
  destruct (fault (db_calls w)); [reflexivity |].
  simpl. unfold select_by_key. simpl.
  destruct (users w !! user_id) as [r |]; [| reflexivity].
  simpl. unfold lift_outcome.
  destruct (SchoolLevel_of (u_school_level r)); reflexivity.
Qed.

Lemma select_existing_user_eq (user_id : string) (w : world) :
  db_execute fault (SELECT_grade_section_student_no user_id) true w =
  (if fault (db_calls w) then Raise OperationalError
   else Ok (Some (match users w !! user_id with
                  | Some r => [[u_grade_section r; u_student_no r]]
                  | None => []
                  end)),
   next_db_call w).
Proof.
  unfold db_execute.
  destruct (fault (db_calls w)); [reflexivity |].
  simpl. unfold select_by_key. simpl.
  destruct (users w !! user_id); reflexivity.
Qed.

End LookupProperties.

(** C10.  For an identity without a row in [users], and when the server
    answers the query, [get_user_language] returns ['en']: neither
    [None] nor an exception. *)
Theorem get_user_language_default (fault : nat -> bool) (user_id : string)
    (w : world) :
  users w !! user_id = None ->
  fault (db_calls w) = false ->
  fst (get_user_language fault user_id w) = Ok (Some "en").
Proof.
  intros Hrow Hf. rewrite get_user_language_eq, Hf, Hrow. reflexivity.
Qed.

Lemma get_user_language_default_witness :
  fst (get_user_language no_fault "1" initial_world) = Ok (Some "en").
Proof.
  apply (get_user_language_default no_fault "1" initial_world); reflexivity.
Defined.

(** A row whose language column is set answers with that language, and
    a failed round trip raises. *)
Example get_user_language_cases :
  fst (get_user_language no_fault "1" middle_school_user) = Ok (Some "en") /\
  fst (get_user_language no_fault "2" middle_school_user) = Ok (Some "en") /\
  fst (get_user_language (fault_at 0) "2" middle_school_user) = Raise OperationalError.
Proof. repeat split; vm_compute; reflexivity. Qed.

(** ** The [/register] handler *)

Ltac nothing_stored :=
  solve [unfold ret; simpl; repeat split;
         first [reflexivity | intros pin Hpin; discriminate Hpin]].

Section HandlerProperties.

Variable fault : nat -> bool.
Variable entropy : nat -> Z.

(** The handler proper never reaches the storing step: the school level
    can only be read from a row of [users], and the same row then makes
    the "already registered" test succeed.  So it hands out no PIN and
    leaves both tables as they were. *)
Lemma register_user_wrapped_never_stores (m : message) (w : world) :
  let '(r, w') := register_user_wrapped fault entropy m w in
  same_state w w' /\ forall pin, r <> Ok (RegistrationSuccessful pin).
Proof.
  unfold register_user_wrapped, bind.
  rewrite get_user_language_eq.
  destruct (fault (db_calls w)) eqn:F0; [nothing_stored |].
  set (uid := str (from_user_id m)).
  rewrite get_user_school_level_eq. simpl db_calls. simpl users.
  destruct (users w !! uid) as [row |] eqn:Hrow;
    (destruct (fault (S (db_calls w))) eqn:F1; [nothing_stored |]);
    [| nothing_stored].
  destruct (SchoolLevel_of (u_school_level row)) as [lvl | e]; [| nothing_stored].
  destruct (split (text m)) as [| a [| gs [| sn [| extra rest]]]];
    try (unfold lift_outcome; destruct (register_usage (u_language row));
         nothing_stored).
  destruct (negb (str_in gs (valid_sections lvl))); [nothing_stored |].
  destruct (negb (isdigit sn) || negb ((1 <=? int sn) && (int sn <=? 60)));
    [nothing_stored |].
  rewrite select_existing_user_eq. simpl db_calls. simpl users. rewrite Hrow.
  destruct (fault (S (S (db_calls w)))); nothing_stored.
Qed.

Lemma register_user_never_stores (now : Z) (m : message) (w : world) :
  let '(r, w') := register_user fault entropy now m w in
  users w' = users w /\
  student_identifiers w' = student_identifiers w /\
  forall pin, r <> Ok (RegistrationSuccessful pin).
Proof.
  unfold register_user, rate_limited, bind, is_rate_limited_step.
  destruct (is_rate_limited (str (from_user_id m)) now (user_attempts w)) as [b a].
  destruct b.
  - rewrite get_user_language_eq. simpl.
    destruct (fault (db_calls w)); [| destruct (users w !! _)]; nothing_stored.
  - pose proof (register_user_wrapped_never_stores m (with_user_attempts a w)) as H.
    destruct (register_user_wrapped fault entropy m (with_user_attempts a w)) as [r w'].
    destruct H as ((Hu & Hi & _) & Hr). auto.
Qed.

End HandlerProperties.

(** C5, the code on the scenario's input.  Identity 1 has chosen the
    middle level and has never registered; [/register 7A 10] is answered
    with "already registered" whatever the draws and the clock, because
    the row that records the school level is the row the handler takes
    for a registration. *)
Theorem register_scenario_is_refused (entropy : nat -> Z) (now : Z) :
  fst (register_user no_fault entropy now (mk_message 1 "/register 7A 10")
         middle_school_user)
  = Ok AlreadyRegistered.
Proof. vm_compute. reflexivity. Qed.

(** The storing step, had it been reached on that input, hands out a
    six-digit PIN. *)
Lemma storing_step_on_scenario (entropy : nat -> Z) :
  exists pin,
    fst (store_registration no_fault entropy "7A" "10" "1" MIDDLE middle_school_user)
      = Ok (RegistrationSuccessful pin) /\
    is_pin pin = true.
Proof.
  unfold store_registration, try_except, bind, generate_unique_pin.
  simpl generate_unique_pin_loop. unfold bind.
  destruct (draw_pin_spec entropy middle_school_user) as (pin & -> & Hpin).
  exists pin. split; [| exact Hpin].
  unfold db_execute, no_fault, cur_execute, select_by_key. simpl.
  rewrite lookup_empty. simpl. rewrite lookup_empty. reflexivity.
Qed.

(** C6, as stated, fails: identity 1 is registered, and a second
    [/register] with a section that does not exist is answered with
    "invalid grade/section", not with "already registered". *)
Lemma register_again_with_invalid_section :
  registered middle_school_user_registered "1" /\
  fst (register_user no_fault (fun _ => 0) 0 (mk_message 1 "/register 9Z 10")
         middle_school_user_registered) = Ok InvalidSection /\
  ~ answers_already_registered no_fault (fun _ => 0) 0
      (mk_message 1 "/register 9Z 10") middle_school_user_registered.
Proof.
  split; [| split].
  - apply (store_registration_registers no_fault (fun _ => 424242)
             "7A" "10" "1" MIDDLE middle_school_user
             middle_school_user_registered "424242").
    + vm_compute. reflexivity.
    + vm_compute. eauto.
  - vm_compute. reflexivity.
  - unfold answers_already_registered.
    destruct (register_user no_fault (fun _ => 0) 0
                (mk_message 1 "/register 9Z 10") middle_school_user_registered)
      as [r w'] eqn:Hrun.
    apply (f_equal fst) in Hrun. vm_compute in Hrun. simpl in Hrun. subst r.
    intros [Hr _]. discriminate Hr.
Qed.

(** The same happens with a missing argument and with a student number
    out of range. *)
Example register_again_other_replies :
  fst (register_user no_fault (fun _ => 0) 0 (mk_message 1 "/register")
         middle_school_user_registered)
  = Ok (RegisterUsage
          "Usage: /register <grade_section> <student_no> (e.g., /register 7A 10)") /\
  fst (register_user no_fault (fun _ => 0) 0 (mk_message 1 "/register 7A 61")
         middle_school_user_registered)
  = Ok InvalidStudentNumber.
Proof. split; vm_compute; reflexivity. Qed.

Lemma str_in_In (x : string) (xs : list string) :
  In x xs -> str_in x xs = true.
Proof.
  intros Hin. unfold str_in. apply existsb_exists.
  exists x. split; [exact Hin | apply String.eqb_refl].
Qed.

(** C6, amended.  An identity with a row in [users], as every registered
    identity has, whose school level is one of the two, sends a
    well-formed [/register]: three fields, a section of its level, a
    student number in 1..60.  If the rate limiter allows the attempt and
    the server answers the three queries, the reply is "already
    registered", both tables are unchanged, and the only change is the
    attempt the rate limiter records. *)
Theorem register_again_is_refused (fault : nat -> bool) (entropy : nat -> Z)
    (now : Z) (m : message) (w : world) (r : user_row) (lvl : SchoolLevel)
    (command grade_section student_no : string) :
  users w !! str (from_user_id m) = Some r ->
  SchoolLevel_of (u_school_level r) = Ok lvl ->
  isascii (text m) = true ->
  split (text m) = [command; grade_section; student_no] ->
  In grade_section (valid_sections lvl) ->
  isdigit student_no = true ->
  1 <= int student_no <= 60 ->
  fst (is_rate_limited (str (from_user_id m)) now (user_attempts w)) = false ->
  fault (db_calls w) = false ->
  fault (S (db_calls w)) = false ->
  fault (S (S (db_calls w))) = false ->
  fst (register_user fault entropy now m w) = Ok AlreadyRegistered /\
  users (snd (register_user fault entropy now m w)) = users w /\
  student_identifiers (snd (register_user fault entropy now m w))
    = student_identifiers w /\
  user_attempts (snd (register_user fault entropy now m w))
    = snd (is_rate_limited (str (from_user_id m)) now (user_attempts w)).
Proof.
  intros Hrow Hlvl _ Hsplit Hsection Hdigit Hrange Hallowed F0 F1 F2.
  unfold register_user, rate_limited, bind, is_rate_limited_step.
  destruct (is_rate_limited (str (from_user_id m)) now (user_attempts w)) as [b a].
  simpl in Hallowed. subst b.
  unfold register_user_wrapped, bind.
  rewrite get_user_language_eq. simpl db_calls. simpl users. rewrite F0, Hrow.
  rewrite get_user_school_level_eq. simpl db_calls. simpl users.
  rewrite F1, Hrow, Hlvl. rewrite Hsplit.
  rewrite (str_in_In _ _ Hsection), Hdigit.
  destruct (Z.leb_spec 1 (int student_no)) as [_ | Hlo]; [| lia].
  destruct (Z.leb_spec (int student_no) 60) as [_ | Hhi]; [| lia].
  cbn [negb orb andb]. cbv beta.
  rewrite select_existing_user_eq. simpl db_calls. simpl users.
  rewrite F2, Hrow. simpl. auto.
Qed.

Lemma register_again_is_refused_witness :
  fst (register_user no_fault (fun _ => 0) 0 (mk_message 1 "/register 7B 12")
         middle_school_user_registered) = Ok AlreadyRegistered /\
  users (snd (register_user no_fault (fun _ => 0) 0
                (mk_message 1 "/register 7B 12") middle_school_user_registered))
    = users middle_school_user_registered.
Proof.
  destruct (register_again_is_refused no_fault (fun _ => 0) 0
              (mk_message 1 "/register 7B 12") middle_school_user_registered
              (mk_user_row (Some "7A") (Some "10") (Some "424242")
                 (Some "en") (Some "middle") None)
              MIDDLE "/register" "7B" "12") as (Hreply & Husers & _);
    try (vm_compute; reflexivity).
  - simpl. auto.
  - vm_compute. split; discriminate.
  - split; assumption.
Defined.

(** * Further properties *)

(** ** PIN generation *)

Section GenerationProperties.

Variable fault : nat -> bool.
Variable entropy : nat -> Z.

Lemma nth_draw_next (w : world) (i : nat) :
  nth_draw entropy (next_db_call (next_rand_call w)) i = nth_draw entropy w (S i).
Proof. unfold nth_draw. simpl. rewrite Nat.add_succ_r. reflexivity. Qed.

Lemma after_rounds_next (k : nat) (w : world) :
  after_rounds k (next_db_call (next_rand_call w)) = after_rounds (S k) w.
Proof. unfold after_rounds. simpl. rewrite !Nat.add_succ_r. reflexivity. Qed.

Lemma draw_pin_eq (w : world) :
  draw_pin entropy w = (Ok (nth_draw entropy w 0), next_rand_call w).
Proof. reflexivity. Qed.

(** One round of the loop, when the server answers. *)
Lemma generate_unique_pin_loop_round (n : nat) (w : world) :
  fault (db_calls w) = false ->
  generate_unique_pin_loop fault entropy (S n) w =
  match student_identifiers w !! nth_draw entropy w 0 with
  | None => (Ok (nth_draw entropy w 0), next_db_call (next_rand_call w))
  | Some _ =>
      generate_unique_pin_loop fault entropy n (next_db_call (next_rand_call w))
  end.
Proof.
  intros F. simpl. unfold bind. rewrite draw_pin_eq.
  unfold db_execute. simpl. rewrite F. unfold select_by_key. simpl.
  destruct (student_identifiers w !! nth_draw entropy w 0); reflexivity.
Qed.

(** The loop returns the first drawn PIN that is free. *)
Lemma generate_unique_pin_loop_first_free (n k : nat) (w : world) :
  (k < n)%nat ->
  (forall i, (i < k)%nat -> is_Some (student_identifiers w !! nth_draw entropy w i)) ->
  student_identifiers w !! nth_draw entropy w k = None ->
  (forall i, (i <= k)%nat -> fault (i + db_calls w) = false) ->
  generate_unique_pin_loop fault entropy n w
    = (Ok (nth_draw entropy w k), after_rounds (S k) w).
Proof.
  revert n w. induction k as [| k IH]; intros n w Hk Htaken Hfree Hf;
    (destruct n as [| n]; [lia |]);
    rewrite generate_unique_pin_loop_round by (apply (Hf 0%nat); lia).
  - rewrite Hfree. reflexivity.
  - destruct (Htaken 0%nat ltac:(lia)) as [row ->].
    rewrite (IH n (next_db_call (next_rand_call w))).
    + rewrite nth_draw_next, after_rounds_next. reflexivity.
    + lia.
    + intros i Hi. rewrite nth_draw_next. apply Htaken. lia.
    + rewrite nth_draw_next. exact Hfree.
    + intros i Hi. simpl. rewrite Nat.add_succ_r. apply (Hf (S i)). lia.
Qed.

(** The loop ends in [ValueError] exactly when each of its rounds was
    answered by the server and drew a PIN that is taken. *)
Lemma generate_unique_pin_loop_exhausted (n : nat) (w : world) :
  fst (generate_unique_pin_loop fault entropy n w) = Raise ValueError <->
  (forall i, (i < n)%nat ->
     fault (i + db_calls w) = false /\
     is_Some (student_identifiers w !! nth_draw entropy w i)).
Proof.
  revert w. induction n as [| n IH]; intros w.
  - simpl. split; [intros _ i Hi; lia | reflexivity].
  - destruct (fault (db_calls w)) eqn:F.
    + split.
      * simpl. unfold bind. rewrite draw_pin_eq. unfold db_execute. simpl.
        rewrite F. simpl. discriminate.
      * intros H. destruct (H 0%nat ltac:(lia)) as [F' _]. simpl in F'. congruence.
    + rewrite generate_unique_pin_loop_round by exact F.
      destruct (student_identifiers w !! nth_draw entropy w 0) as [row |] eqn:E.
      * rewrite IH. split.
        -- intros H [| i] Hi.
           ++ split; [exact F | rewrite E; eauto].
           ++ destruct (H i ltac:(lia)) as [Hf Ht].
              simpl in Hf. rewrite Nat.add_succ_r in Hf.
              rewrite nth_draw_next in Ht. split; assumption.
        -- intros H i Hi. destruct (H (S i) ltac:(lia)) as [Hf Ht].
           simpl. rewrite Nat.add_succ_r. rewrite nth_draw_next. split; assumption.
      * split; [simpl; discriminate |].
        intros H. destruct (H 0%nat ltac:(lia)) as [_ [row Hrow]]. congruence.
Qed.

(** The loop raises nothing but [ValueError] and [OperationalError]. *)
Lemma generate_unique_pin_loop_raises (n : nat) (w : world) (e : exn) :
  fst (generate_unique_pin_loop fault entropy n w) = Raise e ->
  e = ValueError \/ e = OperationalError.
Proof.
  revert w. induction n as [| n IH]; intros w.
  - simpl. intros [= <-]. auto.
  - destruct (fault (db_calls w)) eqn:F.
    + simpl. unfold bind. rewrite draw_pin_eq. unfold db_execute. simpl.
      rewrite F. simpl. intros [= <-]. auto.
    + rewrite generate_unique_pin_loop_round by exact F.
      destruct (student_identifiers w !! nth_draw entropy w 0).
      * apply IH.
      * simpl. discriminate.
Qed.

End GenerationProperties.

(** X1.  [generate_unique_pin] writes nothing, whether it returns or
    raises; what it returns is a string of exactly six ASCII digits, and
    what it raises is [ValueError] or [OperationalError]. *)
Theorem generate_unique_pin_result (fault : nat -> bool) (entropy : nat -> Z)
    (w : world) :
  same_state w (snd (generate_unique_pin fault entropy w)) /\
  match fst (generate_unique_pin fault entropy w) with
  | Ok pin => is_pin pin = true
  | Raise e => e = ValueError \/ e = OperationalError
  end.
Proof.
  pose proof (generate_unique_pin_spec fault entropy w) as H.
  pose proof (generate_unique_pin_loop_raises fault entropy 100 w) as Hr.
  unfold generate_unique_pin in *.
  destruct (generate_unique_pin_loop fault entropy 100 w) as [[pin | e] w'].
  - destruct H as (Hs & _ & Hpin). split; assumption.
  - destruct H as (Hs & _). split; [exact Hs | apply Hr; reflexivity].
Qed.

(** X2.  [generate_unique_pin] returns the first drawn PIN that is free:
    if the first [k] draws ([k] below 100) are taken, the next one is
    not, and the server answers the [k + 1] lookups, then that PIN is
    returned after exactly [k + 1] draws and [k + 1] round trips. *)
Theorem generate_unique_pin_first_free (fault : nat -> bool) (entropy : nat -> Z)
    (k : nat) (w : world) :
  (k < 100)%nat ->
  (forall i, (i < k)%nat -> is_Some (student_identifiers w !! nth_draw entropy w i)) ->
  student_identifiers w !! nth_draw entropy w k = None ->
  (forall i, (i <= k)%nat -> fault (i + db_calls w)%nat = false) ->
  generate_unique_pin fault entropy w
    = (Ok (nth_draw entropy w k), after_rounds (S k) w).
Proof.
  intros Hk Htaken Hfree Hf.
  apply generate_unique_pin_loop_first_free; assumption.
Qed.

Lemma generate_unique_pin_first_free_witness :
  generate_unique_pin no_fault
    (fun n => match n with 1%nat => 424242 | _ => 7 end)
    middle_school_user_registered
  = (Ok "000007", after_rounds 2 middle_school_user_registered).
Proof.
  apply (generate_unique_pin_first_free no_fault
           (fun n => match n with 1%nat => 424242 | _ => 7 end)
           1 middle_school_user_registered).
  - lia.
  - intros i Hi. assert (i = 0%nat) as -> by lia. vm_compute. eauto.
  - vm_compute. reflexivity.
  - intros i Hi. reflexivity.
Defined.

(** X3.  [generate_unique_pin] gives up with [ValueError] exactly when
    the server answered all 100 lookups and each of the 100 draws was a
    PIN already in [student_identifiers]. *)
Theorem generate_unique_pin_gives_up (fault : nat -> bool) (entropy : nat -> Z)
    (w : world) :
  fst (generate_unique_pin fault entropy w) = Raise ValueError <->
  (forall i, (i < 100)%nat ->
     fault (i + db_calls w)%nat = false /\
     is_Some (student_identifiers w !! nth_draw entropy w i)).
Proof. apply generate_unique_pin_loop_exhausted. Qed.

Lemma generate_unique_pin_gives_up_witness :
  fst (generate_unique_pin no_fault (fun _ => 424242) middle_school_user_registered)
    = Raise ValueError.
Proof.
  apply (proj2 (generate_unique_pin_gives_up no_fault (fun _ => 424242)
                  middle_school_user_registered)).
  intros i Hi. split; [reflexivity |]. vm_compute. eauto.
Defined.

(** ** The storing step, continued *)

(** The storing step, when the server answers the lookups up to the
    first free draw, the insert and the update: both writes are in
    place, and the reply is the success message if it can be sent and
    the failure message if it cannot. *)
Lemma store_registration_after_both_writes (fault : nat -> bool)
    (entropy : nat -> Z) (gs sn uid : string) (lvl : SchoolLevel)
    (k : nat) (w : world) :
  (k < 100)%nat ->
  (forall i, (i < k)%nat -> is_Some (student_identifiers w !! nth_draw entropy w i)) ->
  student_identifiers w !! nth_draw entropy w k = None ->
  (forall i, (i <= k + 2)%nat -> fault (i + db_calls w)%nat = false) ->
  let run := store_registration fault entropy gs sn uid lvl w in
  fst run = (if fault (k + 3 + db_calls w)%nat then Ok RegistrationFailed
             else Ok (RegistrationSuccessful (nth_draw entropy w k))) /\
  student_identifiers (snd run) =
    <[nth_draw entropy w k := registration_row gs sn uid lvl]>
      (student_identifiers w) /\
  users (snd run) = alter (set_registration gs sn (nth_draw entropy w k)) uid (users w).
Proof.
  intros Hk Htaken Hfree Hf. simpl.
  unfold store_registration, try_except, bind.
  rewrite (generate_unique_pin_first_free fault entropy k w Hk Htaken Hfree)
    by (intros i Hi; apply Hf; lia).
  pose proof (Hf (S k) ltac:(lia)) as F1. simpl in F1.
  pose proof (Hf (S (S k)) ltac:(lia)) as F2. simpl in F2.
  unfold db_execute. simpl.
  rewrite F1. simpl. rewrite Hfree. simpl. rewrite F2.
  unfold bot_reply_to. simpl.
  replace (k + 3 + db_calls w)%nat with (S (S (S (k + db_calls w)))) by lia.
  destruct (fault (S (S (S (k + db_calls w))))); unfold ret; simpl; repeat split.
Qed.



(** X5.  Whatever its outcome, the storing step leaves every row of
    [users] in place with its language, school level and registration
    time, and does not touch the rows of other identities at all. *)
Theorem store_registration_keeps_profiles (fault : nat -> bool)
    (entropy : nat -> Z) (grade_section student_no user_id : string)
    (school_level : SchoolLevel) (w : world) (other : string) :
  let w' := snd (store_registration fault entropy grade_section student_no
                   user_id school_level w) in
  u_language <$> users w' !! other = u_language <$> users w !! other /\
  u_school_level <$> users w' !! other = u_school_level <$> users w !! other /\
  u_registered_at <$> users w' !! other = u_registered_at <$> users w !! other /\
  (other <> user_id -> users w' !! other = users w !! other).
Proof.
  pose proof (store_registration_cases fault entropy grade_section student_no
                user_id school_level w) as H.
  destruct (store_registration fault entropy grade_section student_no user_id
              school_level w) as [r w'].
  simpl.
  destruct H as [_ [(pin & _ & _ & _ & _ & Hu)
                   | [(_ & Hu & _)
                     | [(_ & Hu & _) | (_ & _ & pin & _ & _ & Hu)]]]];
    rewrite Hu; try (repeat split; reflexivity);
    (rewrite lookup_alter; destruct (decide (user_id = other)) as [-> | Hne];
     [ destruct (users w !! other) as [row |]; repeat split; try reflexivity;
       intros Hne; contradiction
     | repeat split; reflexivity ]).
Qed.

Lemma store_registration_keeps_profiles_witness :
  u_language <$> users middle_school_user_registered !! "1" = Some (Some "en") /\
  u_school_level <$> users middle_school_user_registered !! "1"
    = Some (Some "middle") /\
  users middle_school_user_registered !! "2" = None.
Proof.
  destruct (store_registration_keeps_profiles no_fault (fun _ => 424242)
              "7A" "10" "1" MIDDLE middle_school_user "1") as (Hl & Hs & _).
  destruct (store_registration_keeps_profiles no_fault (fun _ => 424242)
              "7A" "10" "1" MIDDLE middle_school_user "2") as (_ & _ & _ & Ho).
  split; [| split].
  - exact Hl.
  - exact Hs.
  - apply Ho. discriminate.
Defined.

(** X6.  The [UPDATE] is not checked for the number of rows it matched:
    for an identity without a row in [users], a run of the storing step
    that reports success has inserted the identifier row and left
    [users] exactly as it was, so the identity is still not registered. *)
Theorem store_registration_without_user_row (fault : nat -> bool)
    (entropy : nat -> Z) (grade_section student_no user_id : string)
    (school_level : SchoolLevel) (w w' : world) (pin : string) :
  users w !! user_id = None ->
  store_registration fault entropy grade_section student_no user_id school_level w
    = (Ok (RegistrationSuccessful pin), w') ->
  users w' = users w /\
  student_identifiers w' !! pin
    = Some (registration_row grade_section student_no user_id school_level) /\
  ~ registered w' user_id.
Proof.
  intros Hnone Hrun.
  pose proof (store_registration_cases fault entropy grade_section student_no
                user_id school_level w) as H.
  rewrite Hrun in H.
  destruct H as [_ [(p & [= <-] & _ & _ & Hi & Hu)
                   | [([=] & _) | [([=] & _) | ([=] & _)]]]].
  assert (Husers : users w' = users w).
  { rewrite Hu. apply map_eq. intros k. rewrite lookup_alter.
    destruct (decide (user_id = k)) as [<- | _]; [| reflexivity].
    rewrite Hnone. reflexivity. }
  split; [exact Husers |]. split.
  - rewrite Hi. apply lookup_insert_eq.
  - intros (r & _ & _ & _ & _ & Hr & _). rewrite Husers, Hnone in Hr. discriminate.
Qed.

Lemma store_registration_without_user_row_witness :
  users (snd (store_registration no_fault (fun _ => 424242) "7A" "10" "2" MIDDLE
                middle_school_user)) = users middle_school_user /\
  student_identifiers
    (snd (store_registration no_fault (fun _ => 424242) "7A" "10" "2" MIDDLE
            middle_school_user)) !! "424242"
    = Some (registration_row "7A" "10" "2" MIDDLE).
Proof.
  destruct (store_registration_without_user_row no_fault (fun _ => 424242)
              "7A" "10" "2" MIDDLE middle_school_user
              (snd (store_registration no_fault (fun _ => 424242) "7A" "10" "2"
                      MIDDLE middle_school_user)) "424242")
    as (Hu & Hi & _).
  - vm_compute. reflexivity.
  - vm_compute. reflexivity.
  - split; assumption.
Defined.

(** X7.  The storing step succeeds whenever it can: if one of the first
    100 draws is free, the server answers the lookups up to it, the
    insert and the update, and the success message can be sent, then
    success is reported with the first free draw as the PIN, the
    identifier row is inserted under it and the row of the identity in
    [users] carries the registration. *)
Theorem store_registration_succeeds (fault : nat -> bool) (entropy : nat -> Z)
    (grade_section student_no user_id : string) (school_level : SchoolLevel)
    (k : nat) (w : world) :
  (k < 100)%nat ->
  (forall i, (i < k)%nat -> is_Some (student_identifiers w !! nth_draw entropy w i)) ->
  student_identifiers w !! nth_draw entropy w k = None ->
  (forall i, (i <= k + 2)%nat -> fault (i + db_calls w)%nat = false) ->
  fault (k + 3 + db_calls w)%nat = false ->
  let run := store_registration fault entropy grade_section student_no user_id
               school_level w in
  fst run = Ok (RegistrationSuccessful (nth_draw entropy w k)) /\
  student_identifiers (snd run) =
    <[nth_draw entropy w k :=
        registration_row grade_section student_no user_id school_level]>
      (student_identifiers w) /\
  users (snd run) =
    alter (set_registration grade_section student_no (nth_draw entropy w k))
      user_id (users w).
Proof.
  intros Hk Htaken Hfree Hf Hsend.
  pose proof (store_registration_after_both_writes fault entropy grade_section
                student_no user_id school_level k w Hk Htaken Hfree Hf) as H.
  simpl in H. rewrite Hsend in H. exact H.
Qed.

Lemma store_registration_succeeds_witness :
  fst (store_registration no_fault
         (fun n => match n with 1%nat => 424242 | _ => 7 end)
         "7B" "11" "2" MIDDLE middle_school_user_registered)
  = Ok (RegistrationSuccessful "000007").
Proof.
  apply (store_registration_succeeds no_fault
           (fun n => match n with 1%nat => 424242 | _ => 7 end)
           "7B" "11" "2" MIDDLE 1 middle_school_user_registered).
  - lia.
  - intros i Hi. assert (i = 0%nat) as -> by lia. vm_compute. eauto.
  - vm_compute. reflexivity.
  - intros i Hi. reflexivity.
  - reflexivity.
Defined.

(** ** [db_execute] *)

(** X8.  A committed [INSERT] is seen by the next statements: once
    [db_execute] has inserted a PIN that was free, the [SELECT] on that
    PIN returns its one row, and a second [INSERT] of the same PIN, with
    whatever other columns, raises [IntegrityError] and leaves both
    tables as they are. *)
Theorem insert_is_seen_and_not_repeated (fault : nat -> bool)
    (pin gs sn tid lvl gs' sn' tid' lvl' : string) (w : world) :
  student_identifiers w !! pin = None ->
  fault (db_calls w) = false ->
  fault (S (db_calls w)) = false ->
  let w1 := snd (db_execute fault (INSERT_student_identifiers pin gs sn tid lvl)
                   false w) in
  fst (db_execute fault (INSERT_student_identifiers pin gs sn tid lvl) false w)
    = Ok None /\
  student_identifiers w1 !! pin
    = Some (mk_identifier_row (Some gs) (Some sn) (Some tid) (Some lvl)) /\
  fst (db_execute fault (SELECT_pin pin) true w1) = Ok (Some [[Some pin]]) /\
  fst (db_execute fault (INSERT_student_identifiers pin gs' sn' tid' lvl') false w1)
    = Raise IntegrityError /\
  same_state w1
    (snd (db_execute fault (INSERT_student_identifiers pin gs' sn' tid' lvl')
            false w1)).
Proof.
  intros Hfree F0 F1. unfold db_execute. rewrite F0. simpl.
  rewrite Hfree. simpl. rewrite F1. rewrite lookup_insert_eq. simpl.
  unfold select_by_key. simpl. rewrite lookup_insert_eq.
  repeat split.
Qed.

Lemma insert_is_seen_and_not_repeated_witness :
  fst (db_execute no_fault (SELECT_pin "123456") true
         (snd (db_execute no_fault
                 (INSERT_student_identifiers "123456" "7A" "10" "1" "middle")
                 false initial_world)))
  = Ok (Some [[Some "123456"]]).
Proof.
  destruct (insert_is_seen_and_not_repeated no_fault
              "123456" "7A" "10" "1" "middle" "8B" "3" "2" "middle" initial_world)
    as (_ & _ & Hsel & _);
    [reflexivity | reflexivity | reflexivity | exact Hsel].
Defined.

(** ** The [/register] handler, continued *)

Section HandlerDecisions.

Variable fault : nat -> bool.
Variable entropy : nat -> Z.

(** An attempt that the rate limiter allows runs the handler proper, on
    the world in which the attempt is recorded. *)
Lemma register_user_when_allowed (now : Z) (m : message) (w : world) :
  fst (is_rate_limited (str (from_user_id m)) now (user_attempts w)) = false ->
  register_user fault entropy now m w =
  register_user_wrapped fault entropy m
    (with_user_attempts
       (snd (is_rate_limited (str (from_user_id m)) now (user_attempts w))) w).
Proof.
  intros Hallowed.
  unfold register_user, rate_limited, bind, is_rate_limited_step.
  destruct (is_rate_limited (str (from_user_id m)) now (user_attempts w)) as [b a].
  simpl in Hallowed. subst b. reflexivity.
Qed.

(** The handler proper as a decision table, when the server answers its
    first two queries. *)
Lemma register_user_wrapped_eq (m : message) (w : world) :
  fault (db_calls w) = false ->
  fault (S (db_calls w)) = false ->
  register_user_wrapped fault entropy m w =
  let w2 := next_db_call (next_db_call w) in
  match users w !! str (from_user_id m) with
  | None => (Ok SelectSchoolLevelFirst, w2)
  | Some r =>
      match SchoolLevel_of (u_school_level r) with
      | Raise e => (Raise e, w2)
      | Ok lvl =>
          match split (text m) with
          | [_; gs; sn] =>
              if negb (str_in gs (valid_sections lvl)) then (Ok InvalidSection, w2)
              else if negb (valid_student_no sn) then (Ok InvalidStudentNumber, w2)
              else if fault (S (S (db_calls w)))
                   then (Raise OperationalError, next_db_call w2)
                   else (Ok AlreadyRegistered, next_db_call w2)
          | _ =>
              (match register_usage (u_language r) with
               | Ok usage => Ok (RegisterUsage usage)
               | Raise e => Raise e
               end, w2)
          end
      end
  end.
Proof.
  intros F0 F1. unfold register_user_wrapped, bind.
  rewrite get_user_language_eq, F0.
  set (uid := str (from_user_id m)).
  rewrite get_user_school_level_eq. simpl db_calls. simpl users. rewrite F1.
  destruct (users w !! uid) as [r |] eqn:Hrow; [| reflexivity].
  destruct (SchoolLevel_of (u_school_level r)) as [lvl | e]; [| reflexivity].
  destruct (split (text m)) as [| a [| gs [| sn [| extra rest]]]];
    try (unfold lift_outcome, ret; simpl;
         destruct (register_usage (u_language r)); reflexivity).
  destruct (negb (str_in gs (valid_sections lvl))); [reflexivity |].
  unfold valid_student_no. rewrite negb_involutive.
  destruct (negb (isdigit sn) || negb ((1 <=? int sn) && (int sn <=? 60)));
    [reflexivity |].
  rewrite select_existing_user_eq. simpl db_calls. simpl users. rewrite Hrow.
  destruct (fault (S (S (db_calls w)))); reflexivity.
Qed.

Lemma str_in_not_In (x : string) (xs : list string) :
  ~ In x xs -> str_in x xs = false.
Proof.
  intros Hnot. unfold str_in.
  destruct (existsb (String.eqb x) xs) eqn:E; [| reflexivity].
  apply existsb_exists in E. destruct E as (y & Hy & Heq).
  apply String.eqb_eq in Heq. subst y. contradiction.
Qed.

(** No grade and section belongs to both levels. *)
Lemma valid_sections_disjoint (gs : string) (l1 l2 : SchoolLevel) :
  In gs (valid_sections l1) -> In gs (valid_sections l2) -> l1 = l2.
Proof.
  destruct l1, l2; try reflexivity; simpl; intros H1 H2;
    repeat (destruct H1 as [<- | H1];
            [repeat (destruct H2 as [H2 | H2]; [discriminate H2 |]); contradiction |]);
    contradiction.
Qed.

(** A language outside the table has no usage text. *)
Lemma register_usage_unknown (lang : option string) :
  lang <> Some "en" -> lang <> Some "am" -> register_usage lang = Raise KeyError.
Proof.
  intros Hen Ham. unfold register_usage.
  destruct lang as [l |]; [| reflexivity].
  unfold MESSAGES_register_usage. simpl.
  rewrite lookup_insert_ne by congruence.
  rewrite lookup_insert_ne by congruence.
  rewrite lookup_empty. reflexivity.
Qed.

End HandlerDecisions.

(** X9.  [/register] never registers anybody: for every message, clock
    reading, state, draw and failure pattern, the handler leaves [users]
    and [student_identifiers] as they are and never replies with a PIN. *)
Theorem register_user_hands_out_no_pin (fault : nat -> bool) (entropy : nat -> Z)
    (now : Z) (m : message) (w : world) :
  users (snd (register_user fault entropy now m w)) = users w /\
  student_identifiers (snd (register_user fault entropy now m w))
    = student_identifiers w /\
  forall pin,
    fst (register_user fault entropy now m w) <> Ok (RegistrationSuccessful pin).
Proof.
  pose proof (register_user_never_stores fault entropy now m w) as H.
  destruct (register_user fault entropy now m w) as [r w']. exact H.
Qed.

(** X10.  An identity without a row in [users] is told to choose a
    school level first, whatever the text of its [/register], after
    exactly two round trips to the server. *)
Theorem register_user_without_user_row (fault : nat -> bool) (entropy : nat -> Z)
    (now : Z) (m : message) (w : world) :
  users w !! str (from_user_id m) = None ->
  fst (is_rate_limited (str (from_user_id m)) now (user_attempts w)) = false ->
  fault (db_calls w) = false ->
  fault (S (db_calls w)) = false ->
  fst (register_user fault entropy now m w) = Ok SelectSchoolLevelFirst /\
  db_calls (snd (register_user fault entropy now m w)) = S (S (db_calls w)).
Proof.
  intros Hrow Hallowed F0 F1.
  rewrite register_user_when_allowed by exact Hallowed.
  rewrite register_user_wrapped_eq by assumption.
  simpl. rewrite Hrow. split; reflexivity.
Qed.

Lemma register_user_without_user_row_witness :
  fst (register_user no_fault (fun _ => 0) 0 (mk_message 2 "/register 7A 10")
         middle_school_user) = Ok SelectSchoolLevelFirst.
Proof.
  apply (register_user_without_user_row no_fault (fun _ => 0) 0
           (mk_message 2 "/register 7A 10") middle_school_user);
    vm_compute; reflexivity.
Defined.

(** X11.  A row of [users] whose school level is [NULL] or any text
    other than the two level names makes [/register] raise
    [ValueError]: the handler sends no reply at all, whatever the text. *)
Theorem register_user_with_unknown_level (fault : nat -> bool)
    (entropy : nat -> Z) (now : Z) (m : message) (w : world) (r : user_row) :
  users w !! str (from_user_id m) = Some r ->
  u_school_level r <> Some "elementary" ->
  u_school_level r <> Some "middle" ->
  fst (is_rate_limited (str (from_user_id m)) now (user_attempts w)) = false ->
  fault (db_calls w) = false ->
  fault (S (db_calls w)) = false ->
  fst (register_user fault entropy now m w) = Raise ValueError.
Proof.
  intros Hrow He Hm Hallowed F0 F1.
  rewrite register_user_when_allowed by exact Hallowed.
  rewrite register_user_wrapped_eq by assumption.
  simpl. rewrite Hrow.
  unfold SchoolLevel_of. destruct (u_school_level r) as [s |]; [| reflexivity].
  destruct (String.eqb_spec s "elementary") as [-> | _]; [congruence |].
  destruct (String.eqb_spec s "middle") as [-> | _]; [congruence |].
  reflexivity.
Qed.

Lemma register_user_with_unknown_level_witness :
  fst (register_user no_fault (fun _ => 0) 0 (mk_message 3 "/register 7A 10")
         user_without_level)
  = Raise ValueError.
Proof.
  apply (register_user_with_unknown_level no_fault (fun _ => 0) 0
           (mk_message 3 "/register 7A 10") user_without_level
           (mk_user_row None None None (Some "en") None None));
    try discriminate; vm_compute; reflexivity.
Defined.

(** X12.  On an ASCII text with a number of fields other than three,
    [/register] replies with the usage text of the stored language when
    that is en or am, and raises [KeyError], sending nothing, when the
    stored language is [NULL] or any other text. *)
Theorem register_user_with_wrong_field_count (fault : nat -> bool)
    (entropy : nat -> Z) (now : Z) (m : message) (w : world) (r : user_row)
    (lvl : SchoolLevel) :
  users w !! str (from_user_id m) = Some r ->
  SchoolLevel_of (u_school_level r) = Ok lvl ->
  isascii (text m) = true ->
  length (split (text m)) <> 3%nat ->
  fst (is_rate_limited (str (from_user_id m)) now (user_attempts w)) = false ->
  fault (db_calls w) = false ->
  fault (S (db_calls w)) = false ->
  (forall l usage,
      u_language r = Some l ->
      MESSAGES_register_usage !! l = Some usage ->
      fst (register_user fault entropy now m w) = Ok (RegisterUsage usage)) /\
  (u_language r <> Some "en" ->
   u_language r <> Some "am" ->
   fst (register_user fault entropy now m w) = Raise KeyError).
Proof.
  intros Hrow Hlvl _ Hlen Hallowed F0 F1.
  rewrite register_user_when_allowed by exact Hallowed.
  rewrite register_user_wrapped_eq by assumption.
  simpl. rewrite Hrow, Hlvl.
  destruct (split (text m)) as [| a [| gs [| sn [| extra rest]]]];
    try (simpl in Hlen; congruence); simpl;
    (split;
     [ intros l usage Hl Hu; unfold register_usage; rewrite Hl, Hu; reflexivity
     | intros Hen Ham; rewrite register_usage_unknown by assumption; reflexivity ]).
Qed.

Lemma register_user_with_wrong_field_count_witness :
  fst (register_user no_fault (fun _ => 0) 0 (mk_message 1 "/register 7A")
         middle_school_user)
  = Ok (RegisterUsage
          "Usage: /register <grade_section> <student_no> (e.g., /register 7A 10)") /\
  fst (register_user no_fault (fun _ => 0) 0 (mk_message 4 "/register 7A")
         user_without_language)
  = Raise KeyError.
Proof.
  split.
  - destruct (register_user_with_wrong_field_count no_fault (fun _ => 0) 0
                (mk_message 1 "/register 7A") middle_school_user
                (mk_user_row None None None (Some "en") (Some "middle") None)
                MIDDLE) as [Husage _];
      [ vm_compute; reflexivity | reflexivity | reflexivity
      | vm_compute; discriminate
      | vm_compute; reflexivity | reflexivity | reflexivity | ].
    apply (Husage "en"); vm_compute; reflexivity.
  - destruct (register_user_with_wrong_field_count no_fault (fun _ => 0) 0
                (mk_message 4 "/register 7A") user_without_language
                (mk_user_row None None None None (Some "middle") None)
                MIDDLE) as [_ Hkey];
      [ vm_compute; reflexivity | reflexivity | reflexivity
      | vm_compute; discriminate
      | vm_compute; reflexivity | reflexivity | reflexivity | ].
    apply Hkey; discriminate.
Defined.

(** X13.  The grade and section is checked first: on an ASCII text of
    three fields, a section outside the list of the identity's level,
    and in particular every section of the other level, is answered
    "invalid grade/section" whether or not the student number is
    acceptable. *)
Theorem register_user_with_invalid_section (fault : nat -> bool)
    (entropy : nat -> Z) (now : Z) (m : message) (w : world) (r : user_row)
    (lvl : SchoolLevel) (command grade_section student_no : string) :
  users w !! str (from_user_id m) = Some r ->
  SchoolLevel_of (u_school_level r) = Ok lvl ->
  isascii (text m) = true ->
  split (text m) = [command; grade_section; student_no] ->
  (~ In grade_section (valid_sections lvl) \/
   exists other, other <> lvl /\ In grade_section (valid_sections other)) ->
  fst (is_rate_limited (str (from_user_id m)) now (user_attempts w)) = false ->
  fault (db_calls w) = false ->
  fault (S (db_calls w)) = false ->
  fst (register_user fault entropy now m w) = Ok InvalidSection.
Proof.
  intros Hrow Hlvl _ Hsplit Hsection Hallowed F0 F1.
  assert (Hnot : ~ In grade_section (valid_sections lvl)).
  { destruct Hsection as [H | (other & Hne & Hin)]; [exact H |].
    intros Hin'. apply Hne.
    apply (valid_sections_disjoint grade_section other lvl Hin Hin'). }
  rewrite register_user_when_allowed by exact Hallowed.
  rewrite register_user_wrapped_eq by assumption.
  simpl. rewrite Hrow, Hlvl, Hsplit.
  rewrite (str_in_not_In _ _ Hnot). reflexivity.
Qed.

Lemma register_user_with_invalid_section_witness :
  fst (register_user no_fault (fun _ => 0) 0 (mk_message 1 "/register 6A 99")
         middle_school_user) = Ok InvalidSection.
Proof.
  apply (register_user_with_invalid_section no_fault (fun _ => 0) 0
           (mk_message 1 "/register 6A 99") middle_school_user
           (mk_user_row None None None (Some "en") (Some "middle") None)
           MIDDLE "/register" "6A" "99");
    try (vm_compute; reflexivity).
  right. exists ELEMENTARY. split; [discriminate | simpl; tauto].
Defined.

(** X14.  On an ASCII text of three fields with a section of the
    identity's level, a student number that is not a string of digits
    with a value in 1..60 is answered "invalid student number" after two
    round trips: the query for an existing registration is not sent. *)
Theorem register_user_with_invalid_student_no (fault : nat -> bool)
    (entropy : nat -> Z) (now : Z) (m : message) (w : world) (r : user_row)
    (lvl : SchoolLevel) (command grade_section student_no : string) :
  users w !! str (from_user_id m) = Some r ->
  SchoolLevel_of (u_school_level r) = Ok lvl ->
  isascii (text m) = true ->
  split (text m) = [command; grade_section; student_no] ->
  In grade_section (valid_sections lvl) ->
  (isdigit student_no = false \/ int student_no < 1 \/ 60 < int student_no) ->
  fst (is_rate_limited (str (from_user_id m)) now (user_attempts w)) = false ->
  fault (db_calls w) = false ->
  fault (S (db_calls w)) = false ->
  fst (register_user fault entropy now m w) = Ok InvalidStudentNumber /\
  db_calls (snd (register_user fault entropy now m w)) = S (S (db_calls w)).
Proof.
  intros Hrow Hlvl _ Hsplit Hsection Hbad Hallowed F0 F1.
  rewrite register_user_when_allowed by exact Hallowed.
  rewrite register_user_wrapped_eq by assumption.
  simpl. rewrite Hrow, Hlvl, Hsplit.
  rewrite (str_in_In _ _ Hsection). simpl.
  assert (Hinvalid : valid_student_no student_no = false).
  { unfold valid_student_no. apply negb_false_iff.
    destruct Hbad as [Hd | [Hlo | Hhi]].
    - rewrite Hd. reflexivity.
    - destruct (Z.leb_spec 1 (int student_no)); [lia |].
      simpl. apply orb_true_r.
    - destruct (Z.leb_spec (int student_no) 60); [lia |].
      rewrite andb_false_r. apply orb_true_r. }
  rewrite Hinvalid. split; reflexivity.
Qed.

Lemma register_user_with_invalid_student_no_witness :
  fst (register_user no_fault (fun _ => 0) 0 (mk_message 1 "/register 7A 0")
         middle_school_user) = Ok InvalidStudentNumber.
Proof.
  apply (register_user_with_invalid_student_no no_fault (fun _ => 0) 0
           (mk_message 1 "/register 7A 0") middle_school_user
           (mk_user_row None None None (Some "en") (Some "middle") None)
           MIDDLE "/register" "7A" "0");
    try (vm_compute; reflexivity).
  - simpl. tauto.
  - right. left. vm_compute. reflexivity.
Defined.




Example student_numbers_with_zeros :
  valid_student_no "007" = true /\ valid_student_no "7" = true /\
  valid_student_no "060" = true /\ valid_student_no "061" = false /\
  valid_student_no "00" = false.
Proof. repeat split; reflexivity. Qed.

(** X16.  A request that the rate limiter blocks never reaches the
    decorated handler, whatever that handler is; it still costs one
    round trip to the server, for a language that is not used: the
    reply is "too many requests" when the server answers and the
    handler raises [OperationalError] when it does not.  The tables
    are unchanged, and no attempt is recorded. *)
Theorem rate_limited_blocks_before_the_handler (fault : nat -> bool)
    (func : message -> M reply) (now : Z) (m : message) (w : world) :
  fst (is_rate_limited (str (from_user_id m)) now (user_attempts w)) = true ->
  let run := rate_limited fault func now m w in
  fst run = (if fault (db_calls w) then Raise OperationalError
             else Ok TooManyRequests) /\
  users (snd run) = users w /\
  student_identifiers (snd run) = student_identifiers w /\
  db_calls (snd run) = S (db_calls w) /\
  user_attempts (snd run) !!! str (from_user_id m)
    = List.filter (fun t => now - t <? window)
        (user_attempts w !!! str (from_user_id m)).
Proof.
  intros Hblocked. simpl.
  unfold rate_limited, bind, is_rate_limited_step.
  assert (Hkept :
    snd (is_rate_limited (str (from_user_id m)) now (user_attempts w))
      !!! str (from_user_id m)
    = List.filter (fun t => now - t <? window)
        (user_attempts w !!! str (from_user_id m))).
  { revert Hblocked. unfold is_rate_limited.
    destruct (Config.RATE_LIMIT_max_attempts <=? _)%nat; simpl; [| discriminate].
    intros _. apply lookup_total_insert_eq. }
  destruct (is_rate_limited (str (from_user_id m)) now (user_attempts w)) as [b a].
  simpl in Hblocked, Hkept. subst b.
  rewrite get_user_language_eq. simpl.
  destruct (fault (db_calls w)); [| destruct (users w !! _)];
    simpl; repeat split; exact Hkept.
Qed.

Lemma rate_limited_blocks_before_the_handler_witness :
  fst (rate_limited no_fault (register_user_wrapped no_fault (fun _ => 0)) 5
         (mk_message 1 "/register 7A 10")
         (with_user_attempts {[ "1" := [0; 1; 2; 3; 4] ]} middle_school_user))
  = Ok TooManyRequests.
Proof.
  destruct (rate_limited_blocks_before_the_handler no_fault
              (register_user_wrapped no_fault (fun _ => 0)) 5
              (mk_message 1 "/register 7A 10")
              (with_user_attempts {[ "1" := [0; 1; 2; 3; 4] ]} middle_school_user))
    as (Hreply & _).
  - vm_compute. reflexivity.
  - exact Hreply.
Defined.

(** ** Rate limiting, over a run *)

Section RunProperties.

Variable user_id : string.

(** A check by somebody else leaves the identity's list alone. *)
Lemma is_rate_limited_other (u : string) (now : Z)
    (attempts_of : gmap string (list Z)) :
  u <> user_id ->
  snd (is_rate_limited u now attempts_of) !!! user_id = attempts_of !!! user_id.
Proof.
  intros Hne. unfold is_rate_limited.
  destruct (Config.RATE_LIMIT_max_attempts <=? _)%nat; simpl;
    rewrite ?lookup_total_insert_ne by exact Hne; reflexivity.
Qed.

(** The verdict for an identity, and its list afterwards, depend on its
    own list only. *)
Lemma is_rate_limited_local (now : Z) (a a' : gmap string (list Z)) :
  a !!! user_id = a' !!! user_id ->
  fst (is_rate_limited user_id now a) = fst (is_rate_limited user_id now a') /\
  snd (is_rate_limited user_id now a) !!! user_id
    = snd (is_rate_limited user_id now a') !!! user_id.
Proof.
  intros Heq. unfold is_rate_limited. rewrite Heq.
  destruct (Config.RATE_LIMIT_max_attempts <=? _)%nat; simpl;
    rewrite !lookup_total_insert_eq; split; reflexivity.
Qed.

Lemma allowed_times_own_calls (calls : list (string * Z))
    (a a' : gmap string (list Z)) :
  a !!! user_id = a' !!! user_id ->
  allowed_times user_id calls a = allowed_times user_id (calls_of user_id calls) a'.
Proof.
  revert a a'. induction calls as [| [u now] rest IH]; intros a a' Heq;
    [reflexivity |].
  unfold calls_of. simpl List.filter. fold (calls_of user_id rest).
  destruct (String.eqb_spec u user_id) as [-> | Hne].
  - simpl allowed_times.
    destruct (is_rate_limited_local now a a' Heq) as [Hb Ha].
    destruct (is_rate_limited user_id now a) as [b a1].
    destruct (is_rate_limited user_id now a') as [b' a1'].
    simpl in Hb, Ha. subst b'. rewrite String.eqb_refl.
    rewrite (IH a1 a1' Ha). reflexivity.
  - simpl allowed_times.
    pose proof (is_rate_limited_other u now a Hne) as Ha.
    destruct (is_rate_limited u now a) as [b a1]. simpl in Ha.
    assert (Hf : String.eqb u user_id = false) by (apply String.eqb_neq; exact Hne).
    rewrite Hf, andb_false_r.
    apply IH. rewrite Ha. exact Heq.
Qed.

Lemma allowed_times_after (c : Z) (calls : list (string * Z))
    (a : gmap string (list Z)) :
  clock_monotone c calls ->
  Forall (fun t => c <= t) (allowed_times user_id calls a).
Proof.
  revert c a. induction calls as [| [u now] rest IH]; intros c a Hmono.
  - constructor.
  - destruct Hmono as [Hc Hrest]. simpl.
    destruct (is_rate_limited u now a) as [b a1].
    assert (Hlater : Forall (fun t => c <= t) (allowed_times user_id rest a1)).
    { eapply Forall_impl; [apply (IH now a1 Hrest) |]. intros t Ht. simpl in Ht. lia. }
    destruct (negb b && String.eqb u user_id); [constructor; assumption | exact Hlater].
Qed.

Lemma filter_filter_same {A : Type} (f g : A -> bool) (l : list A) :
  (forall x, In x l -> f x = true -> g x = true) ->
  List.filter f (List.filter g l) = List.filter f l.
Proof.
  induction l as [| x l IH]; intros H; [reflexivity |]. simpl.
  destruct (g x) eqn:G; simpl.
  - rewrite IH by (intros y Hy; apply H; right; exact Hy). reflexivity.
  - rewrite IH by (intros y Hy; apply H; right; exact Hy).
    destruct (f x) eqn:F; [| reflexivity].
    rewrite (H x (or_introl eq_refl) F) in G. discriminate.
Qed.

(** Dropping the timestamps that have left the window at [now] does not
    change how many timestamps a span holds, once the list is at most
    five long and everything that follows is at [now] or later. *)
Lemma span_count_after_drop (now lo : Z) (stored later : list Z) :
  (length stored <= 5)%nat ->
  Forall (fun t => now <= t) later ->
  (length (List.filter (in_span lo)
             (List.filter (fun t => (now - t <? window)%Z) stored ++ later)%list)
   <= 5)%nat ->
  (length (List.filter (in_span lo) (stored ++ later)%list) <= 5)%nat.
Proof.
  intros Hlen Hlater Hkept.
  destruct (existsb (fun t => in_span lo t && negb (now - t <? window)) stored) eqn:E.
  - apply existsb_exists in E. destruct E as (t & _ & Ht).
    apply andb_true_iff in Ht. destruct Ht as [Hspan Hout].
    apply negb_true_iff, Z.ltb_ge in Hout.
    unfold in_span in Hspan. apply andb_true_iff in Hspan.
    destruct Hspan as [Hlo _]. apply Z.leb_le in Hlo.
    rewrite List.filter_app, length_app.
    rewrite (filter_drop_all (in_span lo) later).
    + pose proof (filter_shorter (in_span lo) stored). simpl. lia.
    + eapply Forall_impl; [exact Hlater |]. intros r Hr. simpl in Hr.
      unfold in_span. apply andb_false_iff. right. apply Z.ltb_ge.
      unfold window in Hout. lia.
  - rewrite List.filter_app, length_app in *.
    rewrite filter_filter_same in Hkept; [exact Hkept |].
    intros t Hin Hspan.
    destruct (now - t <? window) eqn:W; [reflexivity |].
    assert (Hex : existsb (fun t => in_span lo t && negb (now - t <? window)) stored
                  = true).
    { apply existsb_exists. exists t. split; [exact Hin |]. rewrite Hspan, W. reflexivity. }
    congruence.
Qed.

Lemma allowed_times_span (calls : list (string * Z)) (a : gmap string (list Z))
    (c lo : Z) :
  (length (a !!! user_id) <= 5)%nat ->
  Forall (fun t => t <= c) (a !!! user_id) ->
  clock_monotone c calls ->
  (length (List.filter (in_span lo)
             (a !!! user_id ++ allowed_times user_id calls a)%list) <= 5)%nat.
Proof.
  revert a c. induction calls as [| [u now] rest IH]; intros a c Hlen Hpast Hmono.
  - simpl. rewrite app_nil_r.
    etransitivity; [apply filter_shorter | exact Hlen].
  - destruct Hmono as [Hc Hrest]. simpl allowed_times.
    destruct (String.eqb_spec u user_id) as [-> | Hne].
    + pose proof (allowed_times_after now rest) as Hafter.
      unfold is_rate_limited.
      set (kept := List.filter _ (a !!! user_id)).
      assert (Hkept_len : (length kept <= length (a !!! user_id))%nat)
        by apply filter_shorter.
      assert (Hkept_past : Forall (fun t => t <= now) kept).
      { apply Forall_forall. intros t Hin. apply list_elem_of_In in Hin.
        apply filter_In in Hin. destruct Hin as [Hin _].
        rewrite Forall_forall in Hpast.
        apply list_elem_of_In in Hin. specialize (Hpast t Hin). simpl in Hpast. lia. }
      destruct (Nat.leb_spec Config.RATE_LIMIT_max_attempts (length kept))
        as [Hfull | Hroom]; cbn [negb andb].
      * apply (span_count_after_drop now); [exact Hlen | apply Hafter; exact Hrest |].
        fold kept.
        specialize (IH (<[user_id := kept]> a) now).
        rewrite lookup_total_insert_eq in IH.
        apply IH; [lia | exact Hkept_past | exact Hrest].
      * apply (span_count_after_drop now);
          [exact Hlen | constructor; [lia | apply Hafter; exact Hrest] |].
        fold kept.
        specialize (IH (<[user_id := (kept ++ [now])%list]> (<[user_id := kept]> a)) now).
        rewrite lookup_total_insert_eq in IH.
        rewrite <- app_assoc in IH. simpl in IH.
        apply IH; [| | exact Hrest].
        -- rewrite length_app. simpl.
           unfold Config.RATE_LIMIT_max_attempts in Hroom. lia.
        -- apply Forall_app. split; [exact Hkept_past |].
           constructor; [lia | constructor].
    + pose proof (is_rate_limited_other u now a Hne) as Ha.
      destruct (is_rate_limited u now a) as [b a1]. simpl in Ha.
      rewrite andb_false_r. rewrite <- Ha.
      apply (IH a1 now); [rewrite Ha; exact Hlen | | exact Hrest].
      rewrite Ha. eapply Forall_impl; [exact Hpast |]. intros t Ht. simpl in Ht. lia.
Qed.

End RunProperties.

(** X17.  What the limiter is for: when the clock never goes back, in
    any run of checks that starts with the empty dictionary, no identity
    is allowed more than 5 times within any span of 60 seconds, however
    its checks are interleaved with those of others. *)
Theorem at_most_five_allowed_per_window (user_id : string)
    (calls : list (string * Z)) (c lo : Z) :
  clock_monotone c calls ->
  (length (List.filter (in_span lo) (allowed_times user_id calls ∅)) <= 5)%nat.
Proof.
  intros Hmono.
  pose proof (allowed_times_span user_id calls ∅ c lo) as H.
  rewrite lookup_total_empty in H. simpl in H.
  apply H; [lia | constructor | exact Hmono].
Qed.

Lemma at_most_five_allowed_per_window_witness :
  allowed_times "1" interleaved_run ∅ = [0; 1; 3; 4; 5; 60000000] /\
  (length (List.filter (in_span 1) (allowed_times "1" interleaved_run ∅)) <= 5)%nat.
Proof.
  split; [vm_compute; reflexivity |].
  apply (at_most_five_allowed_per_window "1" interleaved_run 0 1).
  simpl. lia.
Defined.

(** X18.  The limiter works per identity: the checks of an identity get
    the same verdicts, at the same clock readings, whether or not checks
    of other identities are interleaved with them; nobody can use up
    somebody else's attempts. *)
Theorem rate_limit_is_per_identity (user_id : string)
    (calls : list (string * Z)) (attempts_of : gmap string (list Z)) :
  allowed_times user_id calls attempts_of
  = allowed_times user_id (calls_of user_id calls) attempts_of.
Proof. apply allowed_times_own_calls. reflexivity. Qed.

(** The hypothesis on the clock is needed: if the clock is set back, the
    comparison keeps timestamps from the future and lets more through. *)
Example clock_going_back_allows_more :
  length (List.filter (in_span 0)
            (allowed_times "1"
               [("1", 0); ("1", 0); ("1", 0); ("1", 0); ("1", 0);
                ("1", 60000000); ("1", 1); ("1", 1); ("1", 1); ("1", 1)] ∅))
  = 9%nat.
Proof. vm_compute. reflexivity. Qed.

(** ** Localization and the [/start] and [/help] handlers *)

Lemma lookup_seven {A : Type} (k k1 k2 k3 k4 k5 k6 k7 : string)
    (v1 v2 v3 v4 v5 v6 v7 : A) :
  is_Some ((list_to_map [(k1, v1); (k2, v2); (k3, v3); (k4, v4); (k5, v5);
                         (k6, v6); (k7, v7)] : gmap string A) !! k) ->
  In k [k1; k2; k3; k4; k5; k6; k7].
Proof.
  simpl. intros Hk.
  destruct (decide (k1 = k)) as [-> | n1]; [tauto |].
  destruct (decide (k2 = k)) as [-> | n2]; [tauto |].
  destruct (decide (k3 = k)) as [-> | n3]; [tauto |].
  destruct (decide (k4 = k)) as [-> | n4]; [tauto |].
  destruct (decide (k5 = k)) as [-> | n5]; [tauto |].
  destruct (decide (k6 = k)) as [-> | n6]; [tauto |].
  destruct (decide (k7 = k)) as [-> | n7]; [tauto |].
  rewrite !lookup_insert_ne in Hk by assumption.
  rewrite lookup_empty in Hk. destruct Hk as [v Hv]. discriminate.
Qed.

(** X19.  [MESSAGES] has the same seven keys in both languages: a
    lookup succeeds exactly for the languages en and am and for those
    seven keys, and raises [KeyError] otherwise; the usage text the
    [/register] handler reads is the entry of that table. *)
Theorem messages_cover_both_languages (lang : option string) (key : string) :
  ((exists text, messages_lookup lang key = Ok text) <->
   ((lang = Some "en" \/ lang = Some "am") /\ In key message_keys)) /\
  (messages_lookup lang "register_usage" = register_usage lang).
Proof.
  split; [split |].
  - intros [text Hlookup]. unfold messages_lookup in Hlookup.
    destruct lang as [l |]; [| discriminate].
    destruct (MESSAGES !! l) as [d |] eqn:Hd; [| discriminate].
    destruct (d !! key) as [t |] eqn:Ht; [| discriminate].
    unfold MESSAGES in Hd. simpl in Hd.
    destruct (decide ("en" = l)) as [<- | Hen].
    + rewrite lookup_insert_eq in Hd. injection Hd as <-.
      split; [left; reflexivity |].
      eapply lookup_seven; eexists; exact Ht.
    + rewrite lookup_insert_ne in Hd by exact Hen.
      destruct (decide ("am" = l)) as [<- | Ham].
      * rewrite lookup_insert_eq in Hd. injection Hd as <-.
        split; [right; reflexivity |].
        eapply lookup_seven; eexists; exact Ht.
      * rewrite lookup_insert_ne in Hd by exact Ham.
        rewrite lookup_empty in Hd. discriminate.
  - intros [[-> | ->] Hkey]; unfold message_keys in Hkey; simpl in Hkey;
      repeat (destruct Hkey as [<- | Hkey];
              [eexists; vm_compute; reflexivity |]);
      contradiction.
  - destruct lang as [l |]; [| reflexivity].
    unfold messages_lookup, register_usage.
    destruct (decide ("en" = l)) as [<- | Hen]; [vm_compute; reflexivity |].
    destruct (decide ("am" = l)) as [<- | Ham]; [vm_compute; reflexivity |].
    unfold MESSAGES, MESSAGES_register_usage. simpl.
    rewrite !lookup_insert_ne by assumption. rewrite !lookup_empty. reflexivity.
Qed.

Lemma messages_cover_both_languages_witness :
  (exists text, messages_lookup (Some "am") "login_usage" = Ok text) /\
  messages_lookup (Some "fr") "help" = Raise KeyError.
Proof.
  split.
  - apply (proj2 (proj1 (messages_cover_both_languages (Some "am") "login_usage"))).
    split; [right; reflexivity | simpl; tauto].
  - destruct (messages_lookup (Some "fr") "help") as [text | e] eqn:E.
    + destruct (proj1 (proj1 (messages_cover_both_languages (Some "fr") "help"))
                  (ex_intro _ text E)) as [[H | H] _]; discriminate H.
    + vm_compute in E. injection E as <-. reflexivity.
Defined.

Section OtherHandlerProperties.

Variable fault : nat -> bool.

Lemma send_help_eq (m : message) (w : world) :
  fault (db_calls w) = false ->
  send_help fault m w =
  (match messages_lookup (language_of w (str (from_user_id m))) "help" with
   | Ok text => Ok (mk_sent text [])
   | Raise e => Raise e
   end, next_db_call w).
Proof.
  intros F. unfold send_help, bind, language_of.
  rewrite get_user_language_eq, F.
  destruct (users w !! str (from_user_id m)) as [r |];
    unfold lift_outcome, ret; cbv beta iota zeta;
    repeat match goal with
           | |- context [messages_lookup ?l ?k] =>
               destruct (messages_lookup l k)
           end;
    reflexivity.
Qed.

Lemma send_welcome_eq (m : message) (w : world) :
  fault (db_calls w) = false ->
  send_welcome fault m w =
  (match messages_lookup (language_of w (str (from_user_id m))) "elementary",
         messages_lookup (language_of w (str (from_user_id m))) "middle",
         messages_lookup (language_of w (str (from_user_id m))) "welcome" with
   | Ok elementary, Ok middle, Ok welcome =>
       Ok (mk_sent welcome
             [mk_button elementary "school_level_elementary";
              mk_button middle "school_level_middle"])
   | Raise e, _, _ => Raise e
   | _, Raise e, _ => Raise e
   | _, _, Raise e => Raise e
   end, next_db_call w).
Proof.
  intros F. unfold send_welcome, bind, language_of.
  rewrite get_user_language_eq, F.
  destruct (users w !! str (from_user_id m)) as [r |];
    unfold lift_outcome, ret; cbv beta iota zeta;
    repeat match goal with
           | |- context [messages_lookup ?l ?k] =>
               destruct (messages_lookup l k)
           end;
    reflexivity.
Qed.

Lemma messages_lookup_known (lang : option string) (key : string) :
  lang = Some "en" \/ lang = Some "am" ->
  In key message_keys ->
  exists text, messages_lookup lang key = Ok text.
Proof.
  intros [-> | ->] Hkey; unfold message_keys in Hkey; simpl in Hkey;
    repeat (destruct Hkey as [<- | Hkey];
            [eexists; vm_compute; reflexivity |]);
    contradiction.
Qed.

Lemma messages_lookup_unknown (lang : option string) (key : string) :
  lang <> Some "en" -> lang <> Some "am" ->
  messages_lookup lang key = Raise KeyError.
Proof.
  intros Hen Ham. unfold messages_lookup.
  destruct lang as [l |]; [| reflexivity].
  unfold MESSAGES. simpl.
  rewrite lookup_insert_ne by congruence.
  rewrite lookup_insert_ne by congruence.
  rewrite lookup_empty. reflexivity.
Qed.

End OtherHandlerProperties.

(** X20.  [/help] only reads: when the server answers, it makes one
    round trip and changes neither the tables nor the rate limiter's
    dictionary (it is not rate limited).  It replies with the help text
    of the stored language, of en for an identity without a row, with no
    buttons; and it raises [KeyError], sending nothing, when the stored
    language is [NULL] or any text other than en and am. *)
Theorem send_help_reads_only (fault : nat -> bool) (m : message) (w : world) :
  fault (db_calls w) = false ->
  let lang := language_of w (str (from_user_id m)) in
  let run := send_help fault m w in
  same_state w (snd run) /\
  db_calls (snd run) = S (db_calls w) /\
  (lang = Some "en" \/ lang = Some "am" ->
   exists text,
     messages_lookup lang "help" = Ok text /\ fst run = Ok (mk_sent text [])) /\
  (lang <> Some "en" -> lang <> Some "am" -> fst run = Raise KeyError).
Proof.
  intros F. simpl. rewrite send_help_eq by exact F. simpl.
  split; [repeat split |]. split; [reflexivity |]. split.
  - intros Hlang.
    destruct (messages_lookup_known _ "help" Hlang) as [text Ht];
      [unfold message_keys; simpl; tauto |].
    exists text. rewrite Ht. split; reflexivity.
  - intros Hen Ham. rewrite messages_lookup_unknown by assumption. reflexivity.
Qed.

Lemma send_help_reads_only_witness :
  (exists text,
      messages_lookup (Some "en") "help" = Ok text /\
      fst (send_help no_fault (mk_message 9 "/help") middle_school_user)
        = Ok (mk_sent text [])) /\
  fst (send_help no_fault (mk_message 4 "/help") user_without_language)
    = Raise KeyError.
Proof.
  split.
  - destruct (send_help_reads_only no_fault (mk_message 9 "/help")
                middle_school_user eq_refl) as (_ & _ & Hknown & _).
    apply Hknown. left. vm_compute. reflexivity.
  - destruct (send_help_reads_only no_fault (mk_message 4 "/help")
                user_without_language eq_refl) as (_ & _ & _ & Hunknown).
    apply Hunknown; vm_compute; discriminate.
Defined.

(** X21.  [/start] replies, in the stored language (en without a row),
    with the welcome text and exactly two buttons, whose callback data
    are ["school_level_"] followed by the value of the elementary and of
    the middle level, in this order and in every language; it writes
    nothing.  With a stored language other than en and am it raises
    [KeyError] instead. *)
Theorem send_welcome_offers_both_levels (fault : nat -> bool) (m : message)
    (w : world) :
  fault (db_calls w) = false ->
  let lang := language_of w (str (from_user_id m)) in
  let run := send_welcome fault m w in
  same_state w (snd run) /\
  (lang = Some "en" \/ lang = Some "am" ->
   exists welcome elementary middle,
     messages_lookup lang "welcome" = Ok welcome /\
     messages_lookup lang "elementary" = Ok elementary /\
     messages_lookup lang "middle" = Ok middle /\
     fst run =
       Ok (mk_sent welcome
             [mk_button elementary
                ("school_level_" ++ SchoolLevel_value ELEMENTARY);
              mk_button middle
                ("school_level_" ++ SchoolLevel_value MIDDLE)])) /\
  (lang <> Some "en" -> lang <> Some "am" -> fst run = Raise KeyError).
Proof.
  intros F. simpl. rewrite send_welcome_eq by exact F. simpl.
  split; [repeat split |]. split.
  - intros Hlang.
    destruct (messages_lookup_known _ "welcome" Hlang) as [welcome Hw];
      [unfold message_keys; simpl; tauto |].
    destruct (messages_lookup_known _ "elementary" Hlang) as [elementary He];
      [unfold message_keys; simpl; tauto |].
    destruct (messages_lookup_known _ "middle" Hlang) as [middle Hm];
      [unfold message_keys; simpl; tauto |].
    exists welcome, elementary, middle. rewrite Hw, He, Hm. repeat split.
  - intros Hen Ham. rewrite !messages_lookup_unknown by assumption. reflexivity.
Qed.

Lemma send_welcome_offers_both_levels_witness :
  exists welcome elementary middle,
    fst (send_welcome no_fault (mk_message 9 "/start") middle_school_user)
    = Ok (mk_sent welcome
            [mk_button elementary "school_level_elementary";
             mk_button middle "school_level_middle"]).
Proof.
  destruct (send_welcome_offers_both_levels no_fault (mk_message 9 "/start")
              middle_school_user eq_refl) as (_ & Hknown & _).
  destruct Hknown as (welcome & elementary & middle & _ & _ & _ & Hrun).
  - left. vm_compute. reflexivity.
  - exists welcome, elementary, middle. exact Hrun.
Defined.

(** ** Workbook files *)

Lemma string_length_append (s t : string) :
  String.length (s ++ t) = (String.length s + String.length t)%nat.
Proof. induction s as [| c s IH]; simpl; [reflexivity | rewrite IH; reflexivity]. Qed.

Lemma string_append_inv_tail (s s' t : string) :
  (s ++ t = s' ++ t)%string -> s = s'.
Proof.
  revert s'. induction s as [| c s IH]; intros [| c' s'] H; simpl in H.
  - reflexivity.
  - apply (f_equal String.length) in H.
    rewrite !string_length_append in H. simpl in H. lia.
  - apply (f_equal String.length) in H.
    rewrite !string_length_append in H. simpl in H. lia.
  - injection H as -> H. f_equal. apply IH. exact H.
Qed.

(** X22.  The file a workbook is loaded from determines the cache key:
    two pairs of grade/section and school level that give the same path
    are the same pair, for any text as the grade/section. *)
Theorem workbook_file_path_injective (grade_section grade_section' : string)
    (school_level school_level' : SchoolLevel) :
  workbook_file_path grade_section school_level
    = workbook_file_path grade_section' school_level' ->
  grade_section = grade_section' /\ school_level = school_level'.
Proof.
  unfold workbook_file_path, Config_DATA_DIR.
  destruct school_level, school_level'; simpl; intros H;
    try discriminate H; injection H as H;
    (split; [apply (string_append_inv_tail _ _ ".xlsx"); exact H | reflexivity]).
Qed.

Lemma workbook_file_path_injective_witness :
  workbook_file_path "7A" MIDDLE = "data/middle/7A.xlsx" /\
  ("7A" = "7A" /\ MIDDLE = MIDDLE).
Proof.
  split; [reflexivity |].
  apply (workbook_file_path_injective "7A" "7A" MIDDLE MIDDLE). reflexivity.
Defined.

(** ** Rate limiting and cell values, continued *)

Lemma filter_drops_one {A : Type} (f : A -> bool) (l : list A) (x : A) :
  In x l -> f x = false -> (length (List.filter f l) < length l)%nat.
Proof.
  induction l as [| y l IH]; intros Hin Hx; [contradiction |].
  simpl. destruct Hin as [-> | Hin].
  - rewrite Hx. pose proof (filter_shorter f l). lia.
  - specialize (IH Hin Hx). destruct (f y); simpl; lia.
Qed.

(** X23.  The limiter lets an identity through again as soon as it can:
    after any run of checks that starts with the empty dictionary, a
    check is allowed whenever the identity has fewer than five stored
    timestamps or one of them is at least 60 seconds old. *)
Theorem rate_limit_recovers (calls : list (string * Z)) (user_id : string)
    (now : Z) :
  let attempts_of := snd (rate_limit_checks calls ∅) in
  ((length (attempts_of !!! user_id) < 5)%nat \/
   exists t, In t (attempts_of !!! user_id) /\ window <= now - t) ->
  fst (is_rate_limited user_id now attempts_of) = false.
Proof.
  simpl. intros Hroom.
  assert (Hbound : (length (snd (rate_limit_checks calls ∅) !!! user_id) <= 5)%nat).
  { apply (rate_limit_checks_bounded calls ∅).
    intros u. rewrite lookup_total_empty. simpl. lia. }
  unfold is_rate_limited.
  set (stored := snd (rate_limit_checks calls ∅) !!! user_id) in *.
  set (kept := List.filter _ stored).
  assert (Hkept : (length kept < 5)%nat).
  { destruct Hroom as [Hlt | (t & Hin & Hold)].
    - pose proof (filter_shorter
                    (fun t => now - t <? timedelta_seconds Config.RATE_LIMIT_period)
                    stored) as Hshort.
      fold kept in Hshort. lia.
    - pose proof (filter_drops_one
                    (fun t => now - t <? timedelta_seconds Config.RATE_LIMIT_period)
                    stored t Hin) as Hdrop.
      fold kept in Hdrop.
      assert (Hout : (now - t <? timedelta_seconds Config.RATE_LIMIT_period) = false)
        by (apply Z.ltb_ge; exact Hold).
      specialize (Hdrop Hout). lia. }
  destruct (Nat.leb_spec Config.RATE_LIMIT_max_attempts (length kept)) as [Hfull | _];
    [unfold Config.RATE_LIMIT_max_attempts in Hfull; lia | reflexivity].
Qed.

Lemma rate_limit_recovers_witness :
  fst (is_rate_limited "1" 60000000
         (snd (rate_limit_checks
                 [("1", 0); ("1", 30000000); ("1", 30000001); ("1", 30000002);
                  ("1", 30000003); ("1", 30000004)] ∅)))
  = false.
Proof.
  apply (rate_limit_recovers
           [("1", 0); ("1", 30000000); ("1", 30000001); ("1", 30000002);
            ("1", 30000003); ("1", 30000004)] "1" 60000000).
  right. exists 0. split; [vm_compute; tauto | vm_compute; discriminate].
Defined.

(** X24.  [get_value] never returns [None]: for every argument the
    result is a value other than [None], so a caller can print it
    without a further test. *)
Theorem get_value_is_never_None (cell : pyobj) :
  exists v, get_value cell = Ok v /\ v <> PyNone.
Proof.
  rewrite get_value_eq.
  destruct cell as [| s | n | bits | b | v]; try (eexists; split; [reflexivity | discriminate]).
  destruct v; eexists; (split; [reflexivity | discriminate]).
Qed.
